(** * Recommendation pipeline of the predictive-maintenance service

    A shallow embedding of [src/app.py]: the rule-based fallback engine
    [get_default_recommendations], the orchestrator
    [get_ai_recommendations] and the view [predict] that calls it, with
    the properties the specification states about them and further
    properties read off the code.

    Conventions of the embedding.
    - Python floats are IEEE 754 binary64 values: the kernel's primitive
      floats, with the same rounding and the same comparisons (a comparison
      with a NaN is false).
    - Python text is held as its UTF-8 bytes in [string].
    - A computation of the program is a value of [outcome]: it returns,
      raises, or runs out of the fuel its only loop is given.
      [try/except] is [try_except].  A call into a library is a [reply]:
      it returns or raises.
    - Printing is embedded where its failure can change the outcome: the
      print of the view's handler, whose text can quote the form.
    - What the program receives from outside is a variable of the section
      [App]: the rendering of floats into text, [json.loads],
      [requests.post] and the environment's [GROQ_API_KEY]. *)

From Stdlib Require Import ZArith QArith Qround List String Ascii Bool Lia.
From Stdlib Require Import PrimFloat FloatOps SpecFloat FloatAxioms.
Import ListNotations.

Set Warnings "-inexact-float,-register-all".

Local Open Scope string_scope.
Local Open Scope Z_scope.

(** ** Python values, exceptions and results *)

(** The exceptions the code can meet; every one is a subclass of Python's
    [Exception], which is what the outer handler of
    [get_ai_recommendations] catches.  What the interpreter raises from
    outside the program's own calls ([KeyboardInterrupt], [SystemExit])
    is not part of the embedding. *)
Inductive exn : Type :=
| KeyError
| IndexError
| TypeError
| AttributeError
| ValueError            (* json.JSONDecodeError is a ValueError *)
| ReadTimeout           (* requests.exceptions.Timeout *)
| ConnectionError       (* requests.exceptions.ConnectionError *)
| RequestException.     (* any other failure of the request *)

Inductive outcome (A : Type) : Type :=
| Ret (a : A)
| Raise (e : exn)
| OutOfFuel.

Arguments Ret {A} a.
Arguments Raise {A} e.
Arguments OutOfFuel {A}.

Definition bind {A B : Type} (c : outcome A) (k : A -> outcome B) : outcome B :=
  match c with
  | Ret a => k a
  | Raise e => Raise e
  | OutOfFuel => OutOfFuel
  end.

Notation "x <- c ;; k" := (bind c (fun x => k))
  (at level 61, c at next level, right associativity).

(** What a call into a library hands back: it returns or it raises. *)
Inductive reply (A : Type) : Type :=
| Returns (a : A)
| Raises (e : exn).

Arguments Returns {A} a.
Arguments Raises {A} e.

Definition call {A : Type} (r : reply A) : outcome A :=
  match r with
  | Returns a => Ret a
  | Raises e => Raise e
  end.

(** [try: c except: h] for a handler that catches every [Exception]. *)
Definition try_except {A : Type} (c : outcome A) (h : exn -> outcome A) : outcome A :=
  match c with
  | Raise e => h e
  | other => other
  end.

(** The values [json.loads] and [response.json()] produce, which are also
    the values [get_ai_recommendations] returns. A dict keeps its items in
    insertion order, with one item per key. *)
Inductive pyval : Type :=
| PNone
| PBool (b : bool)
| PInt (z : Z)
| PFloat (x : float)
| PStr (s : string)
| PList (l : list pyval)
| PDict (d : list (string * pyval)).

Fixpoint dict_get (d : list (string * pyval)) (k : string) : option pyval :=
  match d with
  | [] => None
  | (k', v) :: d' => if String.eqb k' k then Some v else dict_get d' k
  end.

(** [d[k] = v] on a dict: an existing key keeps its place. *)
Fixpoint dict_set (d : list (string * pyval)) (k : string) (v : pyval)
  : list (string * pyval) :=
  match d with
  | [] => [(k, v)]
  | (k', v') :: d' =>
      if String.eqb k' k then (k', v) :: d' else (k', v') :: dict_set d' k v
  end.

(** The code points of a text: a lead byte with the continuation bytes
    (10xxxxxx) that follow it. *)
Definition is_continuation (c : ascii) : bool :=
  let n := N_of_ascii c in (128 <=? n)%N && (n <? 192)%N.

Fixpoint code_points (s : string) : list string :=
  match s with
  | EmptyString => []
  | String c s' =>
      match code_points s' with
      | [] => [String c EmptyString]
      | p :: ps =>
          match p with
          | String c' _ =>
              if is_continuation c' then String c p :: ps
              else String c EmptyString :: p :: ps
          | EmptyString => String c EmptyString :: ps
          end
      end
  end.

(** [l[i]] on a sequence: a negative index counts from the end. *)
Definition seq_index {A : Type} (l : list A) (i : Z) : outcome A :=
  let n := Z.of_nat (List.length l) in
  let j := if i <? 0 then i + n else i in
  if (j <? 0) || (n <=? j) then Raise IndexError
  else match nth_error l (Z.to_nat j) with
       | Some a => Ret a
       | None => Raise IndexError
       end.

(** [v[k]] for a string key [k]. *)
Definition getitem_key (v : pyval) (k : string) : outcome pyval :=
  match v with
  | PDict d => match dict_get d k with
               | Some x => Ret x
               | None => Raise KeyError
               end
  | _ => Raise TypeError
  end.

(** [v[i]] for an integer [i]; the dicts at hand have string keys only. *)
Definition getitem_int (v : pyval) (i : Z) : outcome pyval :=
  match v with
  | PList l => seq_index l i
  | PStr s => c <- seq_index (code_points s) i ;; Ret (PStr c)
  | PDict _ => Raise KeyError
  | _ => Raise TypeError
  end.

(** [len(v)]. *)
Definition py_len (v : pyval) : outcome Z :=
  match v with
  | PList l => Ret (Z.of_nat (List.length l))
  | PStr s => Ret (Z.of_nat (List.length (code_points s)))
  | PDict d => Ret (Z.of_nat (List.length d))
  | _ => Raise TypeError
  end.

(** ** Text: [str.find], [str.rfind] and slices *)

(** [s.find(c)] for a one-character [c]: the offset of the first
    occurrence, or -1. *)
Fixpoint str_find (c : ascii) (s : string) : Z :=
  match s with
  | EmptyString => -1
  | String a s' =>
      if Ascii.eqb a c then 0
      else let i := str_find c s' in if i <? 0 then -1 else i + 1
  end.

(** [s.rfind(c)]: the offset of the last occurrence, or -1. *)
Fixpoint str_rfind (c : ascii) (s : string) : Z :=
  match s with
  | EmptyString => -1
  | String a s' =>
      let i := str_rfind c s' in
      if 0 <=? i then i + 1
      else if Ascii.eqb a c then 0 else -1
  end.

Definition str_len (s : string) : Z := Z.of_nat (String.length s).

(** A slice bound as Python reads it: a negative bound counts from the end,
    and the outcome is clamped to the text. *)
Definition clamp_index (len i : Z) : Z :=
  let j := if i <? 0 then i + len else i in
  Z.max 0 (Z.min len j).

(** [s[a:b]]. *)
Definition str_slice (s : string) (a b : Z) : string :=
  let n := str_len s in
  let lo := clamp_index n a in
  let hi := clamp_index n b in
  substring (Z.to_nat lo) (Z.to_nat (hi - lo)) s.

(** [l[:n]] on a list. *)
Definition list_take {A : Type} (n : Z) (l : list A) : list A :=
  firstn (Z.to_nat (clamp_index (Z.of_nat (List.length l)) n)) l.

Definition len {A : Type} (l : list A) : Z := Z.of_nat (List.length l).

(** ** Rendering floats into text

    The f-strings of the program render floats with [format(x, '.Nf')]
    ([format_fixed N x]) and with [str(x)] ([format_str x]).  The program
    is embedded over any rendering; [python_format] below is the one of
    CPython. *)
Class FloatFormat : Type := {
  format_fixed : nat -> float -> string;
  format_str : float -> string
}.

(** ** The recommendation records *)

(** The dict literals of the code all have the same four keys. *)
Record recommendation : Type := mkRec {
  title : string;
  description : string;
  icon : string;
  priority : string
}.

(** [r1 == r2] on two such dicts. *)
Definition rec_eqb (r1 r2 : recommendation) : bool :=
  String.eqb (title r1) (title r2)
  && String.eqb (description r1) (description r2)
  && String.eqb (icon r1) (icon r2)
  && String.eqb (priority r1) (priority r2).

(** [r in recs]. *)
Definition rec_in (r : recommendation) (recs : list recommendation) : bool :=
  existsb (rec_eqb r) recs.

(** The dict as a Python value, keys in the order of the literal. *)
Definition rec_to_py (r : recommendation) : pyval :=
  PDict [("title", PStr (title r));
         ("description", PStr (description r));
         ("icon", PStr (icon r));
         ("priority", PStr (priority r))].

Definition recs_to_py (recs : list recommendation) : pyval :=
  PList (map rec_to_py recs).

(** [recommendations.append(r)]. *)
Definition append (recs : list recommendation) (r : recommendation)
  : list recommendation := recs ++ [r].

(** [recs.extend(more)]. *)
Definition extend (recs more : list recommendation) : list recommendation :=
  recs ++ more.

(** [[r for r in recs if r["priority"] == p]]. *)
Definition with_priority (p : string) (recs : list recommendation)
  : list recommendation :=
  filter (fun r => String.eqb (priority r) p) recs.

(** The text [s] with each apostrophe replaced by a double quote: the way
    texts that hold double quotes are written down here. *)
Fixpoint dquote (s : string) : string :=
  match s with
  | EmptyString => EmptyString
  | String c s' =>
      String (if Ascii.eqb c "039" then "034"%char else c) (dquote s')
  end.

(** ** The program *)

Section App.

Context {F : FloatFormat}.

Local Open Scope float_scope.

(** *** The fallback engine: [get_default_recommendations] *)

(** Derived metrics (lines 112-114 and 139). *)

Definition temp_diff (air_temp process_temp : float) : float :=
  process_temp - air_temp.

Definition air_temp_c (air_temp : float) : float := air_temp - 273.15.

Definition process_temp_c (process_temp : float) : float :=
  process_temp - 273.15.

Definition power_estimate (torque rotational_speed : float) : float :=
  (torque * rotational_speed * 2 * 3.14159) / 60000.

(** The dicts of the four categories. *)

Definition cooling_system_optimization (td : float) : recommendation :=
  mkRec "Cooling System Optimization"
    ("Temperature differential of " ++ format_fixed 1 td
     ++ "K detected. Check cooling efficiency, clean heat exchangers, and verify coolant flow rates to prevent thermal stress.")
    "fas fa-snowflake" "high".

Definition temperature_monitoring_enhancement (ptc : float) : recommendation :=
  mkRec "Temperature Monitoring Enhancement"
    ("Process temperature at " ++ format_fixed 1 ptc
     ++ "°C requires attention. Implement continuous thermal monitoring and consider heat dissipation improvements.")
    "fas fa-thermometer-half" "medium".

Definition thermal_stability_maintenance : recommendation :=
  mkRec "Thermal Stability Maintenance"
    "Current thermal conditions are stable. Monitor temperature trends and maintain cooling system efficiency to prevent future overheating."
    "fas fa-temperature-low" "low".

Definition high_speed_bearing_maintenance (rotational_speed : float) : recommendation :=
  mkRec "High-Speed Bearing Maintenance"
    ("Operating at " ++ format_str rotational_speed
     ++ " RPM requires premium lubrication. Schedule bearing inspection and use high-speed compatible lubricants.")
    "fas fa-tachometer-alt" "high".

Definition low_speed_operation_analysis (rotational_speed : float) : recommendation :=
  mkRec "Low-Speed Operation Analysis"
    ("Low speed operation at " ++ format_str rotational_speed
     ++ " RPM may indicate efficiency issues. Check for mechanical resistance and alignment problems.")
    "fas fa-search" "medium".

Definition optimal_speed_range_monitoring (rotational_speed : float) : recommendation :=
  mkRec "Optimal Speed Range Monitoring"
    ("Current speed of " ++ format_str rotational_speed
     ++ " RPM is within normal range. Continue monitoring for speed variations and maintain consistent operation.")
    "fas fa-gauge" "low".

Definition high_torque_component_inspection (torque : float) : recommendation :=
  mkRec "High-Torque Component Inspection"
    ("High torque load of " ++ format_str torque
     ++ " Nm detected. Inspect coupling alignment, check for mechanical stress, and verify fastener torque specifications.")
    "fas fa-wrench" "high".

Definition drive_system_verification (torque : float) : recommendation :=
  mkRec "Drive System Verification"
    ("Low torque reading of " ++ format_str torque
     ++ " Nm may indicate slipping or reduced load transfer. Check belt tension and coupling integrity.")
    "fas fa-tools" "medium".

Definition torque_load_optimization (torque : float) : recommendation :=
  mkRec "Torque Load Optimization"
    ("Current torque of " ++ format_str torque
     ++ " Nm is within acceptable range. Monitor for load variations and optimize power transfer efficiency.")
    "fas fa-balance-scale" "low".

Definition immediate_maintenance_protocol : recommendation :=
  mkRec "Immediate Maintenance Protocol"
    "AI model indicates maintenance required. Schedule immediate inspection focusing on wear components, lubrication levels, and alignment checks."
    "fas fa-exclamation-triangle" "high".

Definition preventive_maintenance_scheduling : recommendation :=
  mkRec "Preventive Maintenance Scheduling"
    "Machine is operating normally. Maintain current maintenance schedule and monitor parameter trends for early detection of changes."
    "fas fa-calendar-check" "low".

(** The threshold cascade (lines 116-199).

    Each block is an [if/elif/else] whose branches each append one dict to
    [recommendations].  [x > c] is [c <? x] on floats. *)

Definition thermal_step (air_temp process_temp : float)
  (recommendations : list recommendation) : list recommendation :=
  if 15 <? temp_diff air_temp process_temp then
    append recommendations
      (cooling_system_optimization (temp_diff air_temp process_temp))
  else if 50 <? process_temp_c process_temp then
    append recommendations
      (temperature_monitoring_enhancement (process_temp_c process_temp))
  else
    append recommendations thermal_stability_maintenance.

Definition speed_step (rotational_speed : float)
  (recommendations : list recommendation) : list recommendation :=
  if 2000 <? rotational_speed then
    append recommendations (high_speed_bearing_maintenance rotational_speed)
  else if rotational_speed <? 1000 then
    append recommendations (low_speed_operation_analysis rotational_speed)
  else
    append recommendations (optimal_speed_range_monitoring rotational_speed).

Definition torque_step (torque : float)
  (recommendations : list recommendation) : list recommendation :=
  if 50 <? torque then
    append recommendations (high_torque_component_inspection torque)
  else if torque <? 20 then
    append recommendations (drive_system_verification torque)
  else
    append recommendations (torque_load_optimization torque).

Definition urgency_step (prediction_result : Z)
  (recommendations : list recommendation) : list recommendation :=
  if (prediction_result =? 1)%Z then
    append recommendations immediate_maintenance_protocol
  else
    append recommendations preventive_maintenance_scheduling.

(** [recommendations] when control reaches line 201. *)
Definition cascade (air_temp process_temp rotational_speed torque : float)
  (prediction_result : Z) : list recommendation :=
  urgency_step prediction_result
    (torque_step torque
       (speed_step rotational_speed
          (thermal_step air_temp process_temp []))).

(** The auxiliary pool (lines 202-239). *)

Definition additional_recommendations (power : float) : list recommendation :=
  [ mkRec "Vibration Analysis Implementation"
      "Conduct comprehensive vibration analysis to detect early signs of mechanical wear, misalignment, or bearing degradation before they cause failures."
      "fas fa-wave-square" "medium";
    mkRec "Lubrication Schedule Optimization"
      "Review and optimize lubrication intervals based on current operating conditions, load factors, and manufacturer specifications for maximum efficiency."
      "fas fa-oil-can" "medium";
    mkRec "Performance Trending & Analytics"
      "Establish comprehensive baseline performance metrics and implement advanced trend analysis for predictive maintenance optimization."
      "fas fa-chart-line" "low";
    mkRec "Energy Efficiency Audit"
      ("With estimated power output of " ++ format_fixed 2 power
       ++ " kW, conduct energy efficiency audit to identify optimization opportunities and reduce operational costs.")
      "fas fa-bolt" "medium";
    mkRec "Safety Protocol Review"
      "Review current safety protocols and emergency procedures to ensure compliance with latest industrial safety standards and regulations."
      "fas fa-shield-alt" "medium";
    mkRec "Sensor Calibration Check"
      "Verify accuracy of temperature, speed, and torque sensors through calibration checks to ensure reliable data for predictive maintenance."
      "fas fa-adjust" "low" ].


(** Backfill and priority quota (lines 241-272). *)

(** The [for] loop of lines 244-247: the first dict of the pool that is not
    in [recommendations] is appended, and the loop is left. *)
Fixpoint for_pool (pool recommendations : list recommendation)
  : list recommendation :=
  match pool with
  | [] => recommendations
  | rec :: pool' =>
      if negb (rec_in rec recommendations) && (len recommendations <? 4)%Z
      then append recommendations rec
      else for_pool pool' recommendations
  end.

(** The [while] loop of line 242; one unit of fuel per iteration. *)
Fixpoint backfill (fuel : nat) (pool recommendations : list recommendation)
  : outcome (list recommendation) :=
  if (len recommendations <? 4)%Z then
    match fuel with
    | O => OutOfFuel
    | S fuel' => backfill fuel' pool (for_pool pool recommendations)
    end
  else Ret recommendations.

(** The body of [if len(recommendations) > 4] (lines 251-270). *)
Definition priority_quota (recommendations : list recommendation)
  : list recommendation :=
  let high_priority := with_priority "high" recommendations in
  let medium_priority := with_priority "medium" recommendations in
  let low_priority := with_priority "low" recommendations in
  let final_recommendations := nil in
  let final_recommendations :=
    extend final_recommendations (list_take 2 high_priority) in
  let remaining_slots := (4 - len final_recommendations)%Z in
  let final_recommendations :=
    extend final_recommendations
      (list_take remaining_slots medium_priority) in
  let remaining_slots := (4 - len final_recommendations)%Z in
  if (0 <? remaining_slots)%Z then
    extend final_recommendations (list_take remaining_slots low_priority)
  else final_recommendations.

(** Lines 241-272: what the function does with [recommendations] once the
    cascade has filled it. *)
Definition select_recommendations (fuel : nat)
  (pool recommendations : list recommendation)
  : outcome (list recommendation) :=
  recommendations <- backfill fuel pool recommendations ;;
  let recommendations :=
    if (4 <? len recommendations)%Z then priority_quota recommendations
    else recommendations in
  Ret (list_take 4 recommendations).

Variable fuel : nat.

Definition get_default_recommendations
  (air_temp process_temp rotational_speed torque : float)
  (prediction_result : Z) : outcome (list recommendation) :=
  select_recommendations fuel
    (additional_recommendations (power_estimate torque rotational_speed))
    (cascade air_temp process_temp rotational_speed torque prediction_result).

(** *** The orchestrator: [get_ai_recommendations] *)

(** What [requests.post] is called with, and what it answers.
    [json_body] is the outcome of [response.json()]. *)
Record request : Type := mkRequest {
  url : string;
  headers : list (string * string);
  json : pyval;
  timeout : Z
}.

Record response : Type := mkResponse {
  status_code : Z;
  json_body : reply pyval
}.

(** [os.getenv("GROQ_API_KEY")], [None] when the variable is not set. *)
Variable GROQ_API_KEY : option string.

Variable requests_post : request -> reply response.

Variable json_loads : string -> reply pyval.

Definition GROQ_API_URL : string :=
  "https://api.groq.com/openai/v1/chat/completions".

(** [f"{k}"] for the value of [os.getenv]. *)
Definition str_of_env (k : option string) : string :=
  match k with
  | Some s => s
  | None => "None"
  end.

(** The f-string of lines 27-57. *)
Definition build_prompt
  (air_temp process_temp rotational_speed torque : float)
  (maintenance_status : string) : string :=
  "
        As an industrial maintenance expert, analyze these machine parameters and provide 4 specific, actionable maintenance recommendations:
        
        Machine Status: "
  ++ maintenance_status
  ++ "
        - Air Temperature: "
  ++ format_str air_temp
  ++ " K ("
  ++ format_fixed 1 (air_temp - 273.15)
  ++ "°C)
        - Process Temperature: "
  ++ format_str process_temp
  ++ " K ("
  ++ format_fixed 1 (process_temp - 273.15)
  ++ "°C)
        - Rotational Speed: "
  ++ format_str rotational_speed
  ++ " RPM
        - Torque: "
  ++ format_str torque
  ++ " Nm
        
        Consider these factors in your analysis:
        - Temperature differentials and thermal stress
        - Rotational speed vs torque relationship
        - Wear patterns and lubrication needs
        - Energy efficiency optimization
        - Predictive maintenance strategies
        - Safety protocols and compliance
        
        Provide exactly 4 recommendations in this JSON format:
"
  ++ (dquote "        {
            'recommendations': [
                {
                    'title': 'Specific Action Title',
                    'description': 'Detailed explanation of what to do and why',
                    'icon': 'fas fa-relevant-icon',
                    'priority': 'high/medium/low'
                }
")
  ++ "            ]
        }
        
        Make recommendations specific to the actual parameter values, not generic advice. Include a mix of immediate actions, preventive measures, monitoring suggestions, and optimization opportunities.
        ".

Definition build_request
  (air_temp process_temp rotational_speed torque : float)
  (prediction_result : Z) : request :=
  let maintenance_status :=
    if (prediction_result =? 1)%Z then "requires maintenance"
    else "is in good condition" in
  let prompt :=
    build_prompt air_temp process_temp rotational_speed torque
      maintenance_status in
  let headers :=
    [("Authorization", "Bearer " ++ str_of_env GROQ_API_KEY);
     ("Content-Type", "application/json")] in
  let data :=
    PDict
      [("model", PStr "mixtral-8x7b-32768");
       ("messages",
        PList
          [PDict [("role", PStr "system");
                  ("content", PStr "You are an expert industrial maintenance engineer with 20+ years of experience in predictive maintenance systems.")];
           PDict [("role", PStr "user");
                  ("content", PStr prompt)]]);
       ("temperature", PFloat 0.3);
       ("max_tokens", PInt 1200)] in
  mkRequest GROQ_API_URL headers data 30.

(** Lines 89-91: the text between the first opening brace and the last
    closing brace of [content]. *)
Definition extract_json (content : string) : string :=
  let start_idx := str_find "{" content in
  let end_idx := (str_rfind "}" content + 1)%Z in
  str_slice content start_idx end_idx.

(** Lines 89-93, the body of the inner [try].  A [content] that is not a
    text has no [find] method. *)
Definition parse_content (content : pyval) : outcome pyval :=
  match content with
  | PStr s =>
      let json_str := extract_json s in
      recommendations_data <- call (json_loads json_str) ;;
      getitem_key recommendations_data "recommendations"
  | _ => Raise AttributeError
  end.

(** [result['choices'][0]['message']['content']] (line 84). *)
Definition message_content (result : pyval) : outcome pyval :=
  choices <- getitem_key result "choices" ;;
  choice <- getitem_int choices 0 ;;
  message <- getitem_key choice "message" ;;
  getitem_key message "content".

(** What the three [return get_default_recommendations(...)] hand back. *)
Definition fallback
  (air_temp process_temp rotational_speed torque : float)
  (prediction_result : Z) : outcome pyval :=
  recs <- get_default_recommendations air_temp process_temp rotational_speed
            torque prediction_result ;;
  Ret (recs_to_py recs).

Definition get_ai_recommendations
  (air_temp process_temp rotational_speed torque : float)
  (prediction_result : Z) : outcome pyval :=
  try_except
    (response <- call (requests_post
                         (build_request air_temp process_temp
                            rotational_speed torque prediction_result)) ;;
     if (status_code response =? 200)%Z then
       result <- call (json_body response) ;;
       content <- message_content result ;;
       try_except (parse_content content)
         (fun _ => fallback air_temp process_temp rotational_speed torque
                     prediction_result)
     else
       fallback air_temp process_temp rotational_speed torque
         prediction_result)
    (fun e => fallback air_temp process_temp rotational_speed torque
                prediction_result).

(** The remote service answered with status 200 and a body whose first
    choice holds the message content [content]. *)
Definition remote_replies
  (air_temp process_temp rotational_speed torque : float)
  (prediction_result : Z) (content : pyval) : Prop :=
  exists response result,
    requests_post
      (build_request air_temp process_temp rotational_speed torque
         prediction_result) = Returns response
    /\ status_code response = 200%Z
    /\ json_body response = Returns result
    /\ message_content result = Ret content.

End App.

(** ** The route [/predict] (lines 282-329) *)

(** The keyword arguments [render_template] is called with. *)
Record template_args : Type := mkArgs {
  prediction : string;
  recommendations : pyval;
  template_context : list (string * float);
  parameters : list (string * float)
}.

(** [request.form[key]]: the text of the field, or a [KeyError]
    (werkzeug's [BadRequestKeyError]). *)
Fixpoint form_get (form : list (string * string)) (key : string)
  : outcome string :=
  match form with
  | [] => Raise KeyError
  | (k, v) :: form' => if String.eqb k key then Ret v else form_get form' key
  end.

(** The handler of lines 326-329: the text of the exception is printed
    and then returned.  [py_print] is the builtin [print] on the standard
    output: it returns, or it raises when the output refuses the text (a
    [UnicodeEncodeError], which is a [ValueError], for a text the
    encoding of the output cannot hold).  An exception of the print
    leaves the view: no handler stands around this one. *)
Definition error_answer (py_print : string -> reply unit)
  (str_exn : exn -> string) (e : exn) : outcome string :=
  bind (call (py_print ("Error in predict route: " ++ str_exn e)))
    (fun _ => Ret (str_exn e)).

Section Route.

Context {F : FloatFormat}.
Variable fuel : nat.
Variable GROQ_API_KEY : option string.
Variable requests_post : request -> reply response.
Variable json_loads : string -> reply pyval.

(** The builtin [float] on a text, and the builtin [round] with a number
    of digits. *)
Variable py_float : string -> reply float.
Variable py_round : float -> nat -> float.

(** [random_forest_model.predict([[f1, f2, f3, f4]])[0]]. *)
Variable model_predict : float -> float -> float -> float -> reply Z.

Variable render_template : string -> template_args -> reply string.

(** [str(e)]: [exn] names the class of an exception, and [str_exn] gives
    the text of the one at hand. *)
Variable str_exn : exn -> string.

(** The builtin [print].  The prints of lines 292 and 298 write floats and
    the label, text that every output takes, and are left out; the print
    of line 328 writes the text of the exception, which can quote the
    form, and is part of [error_answer]. *)
Variable py_print : string -> reply unit.

Local Open Scope float_scope.

Definition predict (form : list (string * string)) : outcome string :=
  try_except
    (text_1 <- form_get form "feature_1" ;;
     feature_1 <- call (py_float text_1) ;;
     text_2 <- form_get form "feature_2" ;;
     feature_2 <- call (py_float text_2) ;;
     text_3 <- form_get form "feature_3" ;;
     feature_3 <- call (py_float text_3) ;;
     text_4 <- form_get form "feature_4" ;;
     feature_4 <- call (py_float text_4) ;;
     result <- call (model_predict feature_1 feature_2 feature_3 feature_4) ;;
     let prediction_text :=
       if (result =? 1)%Z then "Maintenance Required"
       else "No Maintenance Required" in
     recommendations <-
       get_ai_recommendations fuel GROQ_API_KEY requests_post json_loads
         feature_1 feature_2 feature_3 feature_4 result ;;
     let context :=
       [("air_temp_c", py_round (feature_1 - 273.15) 1);
        ("process_temp_c", py_round (feature_2 - 273.15) 1);
        ("temp_diff", py_round (feature_2 - feature_1) 1);
        ("power_estimate",
         py_round ((feature_4 * feature_3 * 2 * 3.14159) / 60000) 2)] in
     call (render_template "result.html"
             (mkArgs prediction_text recommendations context
                [("air_temp", feature_1);
                 ("process_temp", feature_2);
                 ("rotational_speed", feature_3);
                 ("torque", feature_4)])))
    (error_answer py_print str_exn).

End Route.

(** ** The environment of CPython

    The float rendering and the JSON decoder of the interpreter the program
    runs on, for running the embedding on concrete inputs. *)

(** *** [format(x, '.Nf')] and [str(x)] *)

Definition digit_char (d : Z) : ascii := ascii_of_N (48 + Z.to_N d).

Fixpoint decimal_aux (fuel : nat) (n : Z) (acc : string) : string :=
  match fuel with
  | O => acc
  | S fuel' =>
      let acc' := String (digit_char (n mod 10)) acc in
      if n <? 10 then acc' else decimal_aux fuel' (n / 10) acc'
  end.

(** The decimal digits of a natural number. *)
Definition decimal (n : Z) : string :=
  decimal_aux (S (Z.to_nat (Z.log2 n))) n EmptyString.

Fixpoint zeros (n : nat) : string :=
  match n with
  | O => EmptyString
  | S n' => String "0" (zeros n')
  end.

Definition pad_left (width : nat) (s : string) : string :=
  zeros (width - String.length s) ++ s.

(** The integer nearest to [num / den], a tie going to the even one. *)
Definition round_half_even (num den : Z) : Z :=
  let q := num / den in
  let r := num mod den in
  if (den <? 2 * r) || ((2 * r =? den) && Z.odd q) then q + 1 else q.

Definition sign_text (s : bool) : string := if s then "-" else EmptyString.

(** [format(x, '.Nf')]: the exact value of [x], rounded to [N] decimals. *)
Definition python_format_fixed (N : nat) (x : float) : string :=
  let p := 10 ^ Z.of_nat N in
  let render (s : bool) (n : Z) :=
    sign_text s ++ decimal (n / p)
    ++ (match N with
        | O => EmptyString
        | _ => "." ++ pad_left N (decimal (n mod p))
        end) in
  match Prim2SF x with
  | S754_nan => "nan"
  | S754_infinity s => sign_text s ++ "inf"
  | S754_zero s => render s 0
  | S754_finite s m e =>
      render s
        (if 0 <=? e then Zpos m * 2 ^ e * p
         else round_half_even (Zpos m * p) (2 ^ (- e)))
  end.

(** *** [repr] of a float: the shortest digits that read back as it *)

Definition pow10Q (k : Z) : Q :=
  if 0 <=? k then inject_Z (10 ^ k) else Qmake 1 (Z.to_pos (10 ^ (- k))).

Definition pow2Q (k : Z) : Q :=
  if 0 <=? k then inject_Z (2 ^ k) else Qmake 1 (Z.to_pos (2 ^ (- k))).

Definition Qltb (a b : Q) : bool :=
  match Qcompare a b with Lt => true | _ => false end.
Definition Qleb (a b : Q) : bool :=
  match Qcompare a b with Gt => false | _ => true end.

(** The [k] with [10^k <= v < 10^(k+1)], searched from 0. *)
Fixpoint log10_up (fuel : nat) (v : Q) (k : Z) : Z :=
  match fuel with
  | O => k
  | S fuel' => if Qleb (pow10Q (k + 1)) v then log10_up fuel' v (k + 1) else k
  end.
Fixpoint log10_down (fuel : nat) (v : Q) (k : Z) : Z :=
  match fuel with
  | O => k
  | S fuel' => if Qltb v (pow10Q k) then log10_down fuel' v (k - 1) else k
  end.
Definition floor_log10 (v : Q) : Z :=
  log10_down 400 v (log10_up 400 v 0).

(** The values that round to the float [m * 2^e]: the interval between the
    midpoints to its neighbours, the ends included when [m] is even. *)
Definition reads_back (m : positive) (e : Z) (v : Q) : bool :=
  let x := (inject_Z (Zpos m) * pow2Q e)%Q in
  let up := pow2Q (e - 1) in
  let down :=
    if (Zpos m =? 2 ^ 52) && (-1074 <? e) then pow2Q (e - 2) else pow2Q (e - 1) in
  let lo := (x - down)%Q in
  let hi := (x + up)%Q in
  if Z.even (Zpos m) then Qleb lo v && Qleb v hi
  else Qltb lo v && Qltb v hi.

Definition Qabs_diff (a b : Q) : Q := if Qleb a b then (b - a)%Q else (a - b)%Q.

(** With [n] digits: the digits [d] and the exponent [q] of the value
    [d * 10^q] nearest to the float among those that read back as it. *)
Definition shortest_with (n : Z) (m : positive) (e : Z) : option (Z * Z) :=
  let x := (inject_Z (Zpos m) * pow2Q e)%Q in
  let q := floor_log10 x - (n - 1) in
  let d := Qfloor (x / pow10Q q)%Q in
  let v1 := (inject_Z d * pow10Q q)%Q in
  let v2 := (inject_Z (d + 1) * pow10Q q)%Q in
  match reads_back m e v1, reads_back m e v2 with
  | true, true =>
      match Qcompare (Qabs_diff x v1) (Qabs_diff x v2) with
      | Lt => Some (d, q)
      | Gt => Some (d + 1, q)
      | Eq => Some (if Z.even d then d else d + 1, q)
      end
  | true, false => Some (d, q)
  | false, true => Some (d + 1, q)
  | false, false => None
  end.

Fixpoint shortest_digits (fuel : nat) (n : Z) (m : positive) (e : Z) : Z * Z :=
  match fuel with
  | O => (Zpos m, e)
  | S fuel' =>
      match shortest_with n m e with
      | Some dq => dq
      | None => shortest_digits fuel' (n + 1) m e
      end
  end.

Fixpoint strip_zeros (fuel : nat) (d q : Z) : Z * Z :=
  match fuel with
  | O => (d, q)
  | S fuel' => if (d mod 10 =? 0) && (0 <? d) then strip_zeros fuel' (d / 10) (q + 1) else (d, q)
  end.

(** [repr(x)], which is also [str(x)] and [format(x, '')]. *)
Definition python_format_str (x : float) : string :=
  match Prim2SF x with
  | S754_nan => "nan"
  | S754_infinity s => sign_text s ++ "inf"
  | S754_zero s => sign_text s ++ "0.0"
  | S754_finite s m e =>
      let '(d0, q0) := shortest_digits 17 1 m e in
      let '(d, q) := strip_zeros 20 d0 q0 in
      let digits := decimal d in
      let n := Z.of_nat (String.length digits) in
      let decpt := n + q in
      sign_text s ++
      (if (decpt <=? -4) || (16 <? decpt) then
         let ex := decpt - 1 in
         substring 0 1 digits
         ++ (if n =? 1 then EmptyString
             else "." ++ substring 1 (Z.to_nat (n - 1)) digits)
         ++ "e" ++ (if ex <? 0 then "-" else "+")
         ++ pad_left 2 (decimal (Z.abs ex))
       else if decpt <=? 0 then
         "0." ++ zeros (Z.to_nat (- decpt)) ++ digits
       else if n <=? decpt then
         digits ++ zeros (Z.to_nat (decpt - n)) ++ ".0"
       else
         substring 0 (Z.to_nat decpt) digits ++ "."
         ++ substring (Z.to_nat decpt) (Z.to_nat (n - decpt)) digits)
  end.

#[export] Instance python_format : FloatFormat := {
  format_fixed := python_format_fixed;
  format_str := python_format_str
}.

(** *** [json.loads]

    The decoder of CPython's [json] module in its default configuration:
    the grammar of RFC 8259, and besides it the literals [NaN],
    [Infinity] and [-Infinity]; a control character in a string is
    refused; of two members with one key the later value is kept. The
    interpreter's limits on nesting depth and on the digits of an integer
    are not modelled. *)

Definition code (c : ascii) : Z := Z.of_N (N_of_ascii c).
Definition chr (n : Z) : ascii := ascii_of_N (Z.to_N n).

Definition is_ws (c : ascii) : bool :=
  let n := code c in (n =? 32) || (n =? 9) || (n =? 10) || (n =? 13).

Fixpoint skip_ws (s : string) : string :=
  match s with
  | String c s' => if is_ws c then skip_ws s' else s
  | EmptyString => s
  end.

Definition is_digit (c : ascii) : bool :=
  let n := code c in (48 <=? n) && (n <=? 57).

(** The digits at the head of [s], as a number and a count, and the rest. *)
Fixpoint scan_digits (s : string) (acc : Z) (count : Z) : Z * Z * string :=
  match s with
  | String c s' =>
      if is_digit c then scan_digits s' (10 * acc + (code c - 48)) (count + 1)
      else (acc, count, s)
  | EmptyString => (acc, count, s)
  end.

Fixpoint strip_prefix (p s : string) : option string :=
  match p with
  | EmptyString => Some s
  | String a p' =>
      match s with
      | String b s' => if Ascii.eqb a b then strip_prefix p' s' else None
      | EmptyString => None
      end
  end.

(** The float nearest to [d * 10^k], a tie going to the even mantissa. *)
Definition float_of_decimal (neg : bool) (d k : Z) : float :=
  match d with
  | Zpos p =>
      if 0 <=? k then
        SF2Prim (binary_round prec emax neg (Z.to_pos (Zpos p * 10 ^ k)) 0)
      else
        let den := 10 ^ (- k) in
        let s := Z.max 0 (64 + Z.log2 den - Z.log2 (Zpos p)) in
        let num := Zpos p * 2 ^ s in
        let sticky := if num mod den =? 0 then 0 else 1 in
        SF2Prim (binary_round prec emax neg
                   (Z.to_pos (2 * (num / den) + sticky)) (- s - 1))
  | _ => SF2Prim (S754_zero neg)
  end.

(** A number at the head of [s]: an optional minus sign, an integer part
    with no leading zero, an optional fraction and an optional exponent.
    It is an [int] when it has neither fraction nor exponent. *)
Definition scan_number (s : string) : option (pyval * string) :=
  let '(neg, s1) :=
    match s with
    | String "-" s' => (true, s')
    | _ => (false, s)
    end in
  let int_part :=
    match s1 with
    | String "0" s' => Some (0, s')
    | String c _ =>
        if is_digit c then
          let '(n, _, rest) := scan_digits s1 0 0 in Some (n, rest)
        else None
    | EmptyString => None
    end in
  match int_part with
  | None => None
  | Some (n, s2) =>
      let '(frac, nfrac, s3) :=
        match s2 with
        | String "." s' =>
            let '(f, cnt, rest) := scan_digits s' 0 0 in
            if 0 <? cnt then (Some f, cnt, rest) else (None, 0, s2)
        | _ => (None, 0, s2)
        end in
      let '(ex, s4) :=
        match s3 with
        | String c s' =>
            if Ascii.eqb c "e" || Ascii.eqb c "E" then
              let '(eneg, s'') :=
                match s' with
                | String "-" t => (true, t)
                | String "+" t => (false, t)
                | _ => (false, s')
                end in
              let '(x, cnt, rest) := scan_digits s'' 0 0 in
              if 0 <? cnt then (Some (if eneg then - x else x), rest)
              else (None, s3)
            else (None, s3)
        | EmptyString => (None, s3)
        end in
      match frac, ex with
      | None, None => Some (PInt (if neg then - n else n), s4)
      | _, _ =>
          let f := match frac with Some f => f | None => 0 end in
          let x := match ex with Some x => x | None => 0 end in
          Some (PFloat (float_of_decimal neg (n * 10 ^ nfrac + f) (x - nfrac)),
                s4)
      end
  end.

Definition hex_value (c : ascii) : option Z :=
  let n := code c in
  if (48 <=? n) && (n <=? 57) then Some (n - 48)
  else if (65 <=? n) && (n <=? 70) then Some (n - 55)
  else if (97 <=? n) && (n <=? 102) then Some (n - 87)
  else None.

(** Four hexadecimal digits at the head of [s]. *)
Definition scan_hex4 (s : string) : option (Z * string) :=
  match s with
  | String a (String b (String c (String d rest))) =>
      match hex_value a, hex_value b, hex_value c, hex_value d with
      | Some x, Some y, Some z, Some w =>
          Some (4096 * x + 256 * y + 16 * z + w, rest)
      | _, _, _, _ => None
      end
  | _ => None
  end.

(** The UTF-8 bytes of a code point. *)
Definition utf8 (cp : Z) : string :=
  if cp <? 128 then String (chr cp) EmptyString
  else if cp <? 2048 then
    String (chr (192 + cp / 64)) (String (chr (128 + cp mod 64)) EmptyString)
  else if cp <? 65536 then
    String (chr (224 + cp / 4096))
      (String (chr (128 + (cp / 64) mod 64))
         (String (chr (128 + cp mod 64)) EmptyString))
  else
    String (chr (240 + cp / 262144))
      (String (chr (128 + (cp / 4096) mod 64))
         (String (chr (128 + (cp / 64) mod 64))
            (String (chr (128 + cp mod 64)) EmptyString))).

(** The text of a string literal whose opening quote has been read, and
    what follows its closing quote. *)
Fixpoint scan_string (fuel : nat) (s : string) : option (string * string) :=
  match fuel with
  | O => None
  | S fuel' =>
      match s with
      | EmptyString => None
      | String c s' =>
          if Ascii.eqb c "034" then Some (EmptyString, s')
          else if Ascii.eqb c "\" then
            match s' with
            | EmptyString => None
            | String e s'' =>
                let simple (b : Z) :=
                  match scan_string fuel' s'' with
                  | Some (t, rest) => Some (String (chr b) t, rest)
                  | None => None
                  end in
                if Ascii.eqb e "034" then simple 34
                else if Ascii.eqb e "\" then simple 92
                else if Ascii.eqb e "/" then simple 47
                else if Ascii.eqb e "b" then simple 8
                else if Ascii.eqb e "f" then simple 12
                else if Ascii.eqb e "n" then simple 10
                else if Ascii.eqb e "r" then simple 13
                else if Ascii.eqb e "t" then simple 9
                else if Ascii.eqb e "u" then
                  match scan_hex4 s'' with
                  | None => None
                  | Some (u, s3) =>
                      let '(cp, s4) :=
                        if (55296 <=? u) && (u <=? 56319) then
                          match s3 with
                          | String "\" (String "u" s5) =>
                              match scan_hex4 s5 with
                              | Some (u2, s6) =>
                                  if (56320 <=? u2) && (u2 <=? 57343) then
                                    (65536 + (u - 55296) * 1024 + (u2 - 56320),
                                     s6)
                                  else (u, s3)
                              | None => (u, s3)
                              end
                          | _ => (u, s3)
                          end
                        else (u, s3) in
                      match scan_string fuel' s4 with
                      | Some (t, rest) => Some (utf8 cp ++ t, rest)
                      | None => None
                      end
                  end
                else None
            end
          else if code c <? 32 then None
          else
            match scan_string fuel' s' with
            | Some (t, rest) => Some (String c t, rest)
            | None => None
            end
      end
  end.

(** A JSON value at the head of [s] and the text after it; [scan_items]
    reads the elements of an array after the first, [scan_members] the
    members of an object from a key on. *)
Fixpoint scan_value (fuel : nat) (s : string) : option (pyval * string) :=
  match fuel with
  | O => None
  | S fuel' =>
      match s with
      | String "034" s' =>
          match scan_string (S (String.length s')) s' with
          | Some (t, rest) => Some (PStr t, rest)
          | None => None
          end
      | String "{" s' =>
          match skip_ws s' with
          | String "}" rest => Some (PDict [], rest)
          | s'' =>
              match scan_members fuel' s'' [] with
              | Some (d, rest) => Some (PDict d, rest)
              | None => None
              end
          end
      | String "[" s' =>
          match skip_ws s' with
          | String "]" rest => Some (PList [], rest)
          | s'' =>
              match scan_value fuel' s'' with
              | Some (v, rest) =>
                  match scan_items fuel' (skip_ws rest) [v] with
                  | Some (l, rest') => Some (PList l, rest')
                  | None => None
                  end
              | None => None
              end
          end
      | _ =>
          match strip_prefix "null" s with
          | Some rest => Some (PNone, rest)
          | None =>
          match strip_prefix "true" s with
          | Some rest => Some (PBool true, rest)
          | None =>
          match strip_prefix "false" s with
          | Some rest => Some (PBool false, rest)
          | None =>
          match scan_number s with
          | Some r => Some r
          | None =>
          match strip_prefix "NaN" s with
          | Some rest => Some (PFloat nan, rest)
          | None =>
          match strip_prefix "Infinity" s with
          | Some rest => Some (PFloat infinity, rest)
          | None =>
          match strip_prefix "-Infinity" s with
          | Some rest => Some (PFloat neg_infinity, rest)
          | None => None
          end end end end end end end
      end
  end
with scan_items (fuel : nat) (s : string) (acc : list pyval)
  : option (list pyval * string) :=
  match fuel with
  | O => None
  | S fuel' =>
      match s with
      | String "]" rest => Some (acc, rest)
      | String "," s' =>
          match scan_value fuel' (skip_ws s') with
          | Some (v, rest) => scan_items fuel' (skip_ws rest) (acc ++ [v])
          | None => None
          end
      | _ => None
      end
  end
with scan_members (fuel : nat) (s : string) (acc : list (string * pyval))
  : option (list (string * pyval) * string) :=
  match fuel with
  | O => None
  | S fuel' =>
      match s with
      | String "034" s' =>
          match scan_string (S (String.length s')) s' with
          | Some (k, rest) =>
              match skip_ws rest with
              | String ":" rest' =>
                  match scan_value fuel' (skip_ws rest') with
                  | Some (v, rest'') =>
                      let acc' := dict_set acc k v in
                      match skip_ws rest'' with
                      | String "}" r => Some (acc', r)
                      | String "," r => scan_members fuel' (skip_ws r) acc'
                      | _ => None
                      end
                  | None => None
                  end
              | _ => None
              end
          | None => None
          end
      | _ => None
      end
  end.

(** The decoder on a whole text: [None] where [json.loads] raises. *)
Definition json_decode (s : string) : option pyval :=
  let s' := skip_ws s in
  match scan_value (2 * String.length s' + 2) s' with
  | Some (v, rest) =>
      match skip_ws rest with
      | EmptyString => Some v
      | _ => None
      end
  | None => None
  end.

(** *** The builtins [float] and [round]

    [float] on ASCII text (CPython also takes the digits and spaces of
    other scripts): blanks around the number are dropped, an underscore
    may stand between two digits, and the number is a sign and then
    [inf], [infinity] or [nan] in any case, or decimal digits with an
    optional point and an optional exponent. *)

Definition is_space (c : ascii) : bool :=
  let n := code c in
  (n =? 32) || ((9 <=? n) && (n <=? 13)).

Fixpoint lstrip (s : string) : string :=
  match s with
  | String c s' => if is_space c then lstrip s' else s
  | EmptyString => s
  end.

Fixpoint rstrip (s : string) : string :=
  match s with
  | String c s' =>
      match rstrip s' with
      | EmptyString => if is_space c then EmptyString else String c EmptyString
      | t => String c t
      end
  | EmptyString => EmptyString
  end.

(** The text without its underscores, when each stands between two
    digits. *)
Fixpoint drop_underscores (prev_digit : bool) (s : string) : option string :=
  match s with
  | EmptyString => Some EmptyString
  | String c s' =>
      if Ascii.eqb c "_" then
        match s' with
        | String d _ =>
            if prev_digit && is_digit d then drop_underscores false s'
            else None
        | EmptyString => None
        end
      else
        match drop_underscores (is_digit c) s' with
        | Some t => Some (String c t)
        | None => None
        end
  end.

Definition upper_char (c : ascii) : ascii :=
  let n := code c in if (97 <=? n) && (n <=? 122) then chr (n - 32) else c.

Fixpoint upper (s : string) : string :=
  match s with
  | EmptyString => EmptyString
  | String c s' => String (upper_char c) (upper s')
  end.

(** An unsigned number that fills the whole of [s]. *)
Definition scan_float (neg : bool) (s : string) : option float :=
  let u := upper s in
  if String.eqb u "INF" || String.eqb u "INFINITY" then
    Some (SF2Prim (S754_infinity neg))
  else if String.eqb u "NAN" then Some nan
  else
    let '(n, nint, s1) := scan_digits s 0 0 in
    let '(f, nfrac, s2) :=
      match s1 with
      | String "." s' => scan_digits s' 0 0
      | _ => (0, 0, s1)
      end in
    if (nint + nfrac =? 0) then None
    else
      let '(x, s3) :=
        match s2 with
        | String c s' =>
            if Ascii.eqb c "e" || Ascii.eqb c "E" then
              let '(eneg, s'') :=
                match s' with
                | String "-" t => (true, t)
                | String "+" t => (false, t)
                | _ => (false, s')
                end in
              let '(x, cnt, rest) := scan_digits s'' 0 0 in
              if 0 <? cnt then (if eneg then - x else x, rest) else (0, s2)
            else (0, s2)
        | EmptyString => (0, s2)
        end in
      match s3 with
      | EmptyString =>
          Some (float_of_decimal neg (n * 10 ^ nfrac + f) (x - nfrac))
      | _ => None
      end.

Definition python_float (s : string) : reply float :=
  match drop_underscores false (rstrip (lstrip s)) with
  | None => Raises ValueError
  | Some t =>
      let '(neg, t') :=
        match t with
        | String "-" r => (true, r)
        | String "+" r => (false, r)
        | _ => (false, t)
        end in
      match scan_float neg t' with
      | Some x => Returns x
      | None => Raises ValueError
      end
  end.

(** [round(x, ndigits)] for [ndigits >= 0]: the float nearest to the exact
    value of [x] rounded to [ndigits] decimals, a tie going to the even
    digit; infinities and NaN are handed back. *)
Definition python_round (x : float) (ndigits : nat) : float :=
  match Prim2SF x with
  | S754_finite s m e =>
      let p := 10 ^ Z.of_nat ndigits in
      let n := if 0 <=? e then Zpos m * 2 ^ e * p
               else round_half_even (Zpos m * p) (2 ^ (- e)) in
      float_of_decimal s n (- Z.of_nat ndigits)
  | _ => x
  end.

(** [json.loads]; a [JSONDecodeError] is a [ValueError]. *)
Definition python_json_loads (s : string) : reply pyval :=
  match json_decode s with
  | Some v => Returns v
  | None => Raises ValueError
  end.

(** ** Vocabulary of the specification *)

(** The four categories of the threshold cascade, and the category a
    candidate belongs to, by its title. *)
Inductive category : Type :=
| Thermal
| RotationalSpeed
| Torque
| MaintenanceUrgency.

Definition category_of (r : recommendation) : option category :=
  let t := title r in
  if String.eqb t "Cooling System Optimization"
     || String.eqb t "Temperature Monitoring Enhancement"
     || String.eqb t "Thermal Stability Maintenance" then Some Thermal
  else if String.eqb t "High-Speed Bearing Maintenance"
     || String.eqb t "Low-Speed Operation Analysis"
     || String.eqb t "Optimal Speed Range Monitoring" then Some RotationalSpeed
  else if String.eqb t "High-Torque Component Inspection"
     || String.eqb t "Drive System Verification"
     || String.eqb t "Torque Load Optimization" then Some Torque
  else if String.eqb t "Immediate Maintenance Protocol"
     || String.eqb t "Preventive Maintenance Scheduling"
  then Some MaintenanceUrgency
  else None.

(** How many dicts of [recs] have priority [p]. *)
Definition count_priority (p : string) (recs : list recommendation) : Z :=
  len (with_priority p recs).

(** [c] occurs in [s]. *)
Fixpoint occurs (c : ascii) (s : string) : bool :=
  match s with
  | EmptyString => false
  | String a s' => Ascii.eqb a c || occurs c s'
  end.

(** The schema the specification gives for an AI payload (4.4): a
    sequence of four elements, each with the keys [title], [description],
    [icon] and [priority], the priority being one of high, medium and low
    in any letter case. *)
Definition lower_char (c : ascii) : ascii :=
  let n := N_of_ascii c in
  if (65 <=? n)%N && (n <=? 90)%N then ascii_of_N (n + 32) else c.

Fixpoint lower (s : string) : string :=
  match s with
  | EmptyString => EmptyString
  | String c s' => String (lower_char c) (lower s')
  end.

Definition has_key (d : list (string * pyval)) (k : string) : bool :=
  match dict_get d k with
  | Some _ => true
  | None => false
  end.

Definition valid_priority (v : pyval) : bool :=
  match v with
  | PStr s =>
      String.eqb (lower s) "high" || String.eqb (lower s) "medium"
      || String.eqb (lower s) "low"
  | _ => false
  end.

Definition valid_element (v : pyval) : bool :=
  match v with
  | PDict d =>
      has_key d "title" && has_key d "description" && has_key d "icon"
      && match dict_get d "priority" with
         | Some p => valid_priority p
         | None => false
         end
  | _ => false
  end.

Definition valid_payload (v : pyval) : bool :=
  match v with
  | PList l => (len l =? 4) && forallb valid_element l
  | _ => false
  end.

(** The derived metrics as the specification writes them (3, 4.1), over
    the value [pi] taken for the circle constant. *)
Record DerivedMetrics : Type := mkMetrics {
  tempDiffK : float;
  airTempC : float;
  processTempC : float;
  estimatedPowerKw : float
}.

Definition derive (pi : float)
  (airTemp processTemp rotationalSpeed torque : float) : DerivedMetrics :=
  {| tempDiffK := processTemp - airTemp;
     airTempC := airTemp - 273.15;
     processTempC := processTemp - 273.15;
     estimatedPowerKw := (torque * rotationalSpeed * 2 * pi) / 60000 |}%float.

(** The binary64 value nearest to the circle constant ([math.pi]). *)
Definition math_pi : float := 0x1.921fb54442d18p+1%float.

(** The keyword arguments of the result page for the parsed readings,
    the label and the recommendations, written with the metrics of the
    fallback engine. *)
Definition page_args (py_round : float -> nat -> float)
  (feature_1 feature_2 feature_3 feature_4 : float) (result : Z)
  (recs : pyval) : template_args :=
  mkArgs
    (if result =? 1 then "Maintenance Required"
     else "No Maintenance Required")
    recs
    [("air_temp_c", py_round (air_temp_c feature_1) 1%nat);
     ("process_temp_c", py_round (process_temp_c feature_2) 1%nat);
     ("temp_diff", py_round (temp_diff feature_1 feature_2) 1%nat);
     ("power_estimate", py_round (power_estimate feature_4 feature_3) 2%nat)]
    [("air_temp", feature_1); ("process_temp", feature_2);
     ("rotational_speed", feature_3); ("torque", feature_4)].

(** What the view answers once the template has been called: the page,
    or what the handler answers for the template's exception. *)
Definition page_or_error (py_print : string -> reply unit)
  (str_exn : exn -> string) (r : reply string) : outcome string :=
  match r with
  | Returns page => Ret page
  | Raises e => error_answer py_print str_exn e
  end.

(** A computation that returns or raises, with no loop left unfinished. *)
Definition finished {A : Type} (c : outcome A) : Prop := c <> OutOfFuel.

(** ** Sample replies of the remote service *)

(** A service that answers every request with status 200 and a chat
    completion whose message content is [content]. *)
Definition reply_with_content (content : string) (_ : request)
  : reply response :=
  Returns
    (mkResponse 200
       (Returns
          (PDict
             [("choices",
               PList
                 [PDict
                    [("index", PInt 0);
                     ("message",
                      PDict [("role", PStr "assistant");
                             ("content", PStr content)]);
                     ("finish_reason", PStr "stop")]])]))).

(** A well-formed payload of three recommendations. *)
Definition three_items : string :=
  dquote "{'recommendations': [
 {'title': 'Inspect bearings', 'description': 'Check wear.', 'icon': 'fas fa-cog', 'priority': 'high'},
 {'title': 'Clean filters', 'description': 'Replace clogged filters.', 'icon': 'fas fa-filter', 'priority': 'medium'},
 {'title': 'Log readings', 'description': 'Record daily values.', 'icon': 'fas fa-book', 'priority': 'low'}]}".

(** Four well-formed recommendations in a Markdown fence after a word of
    prose (scenario B of the specification): the prose and the opening
    fence, the text between the outer braces, and the closing fence. *)
Definition fenced_pre : string := "Sure! ```json
".

Definition fenced_mid : string :=
  dquote "'recommendations':[{'title':'Inspect bearings','description':'Check wear.','icon':'fas fa-cog','priority':'high'},{'title':'Clean filters','description':'Replace clogged filters.','icon':'fas fa-filter','priority':'medium'},{'title':'Check coolant','description':'Verify the flow rate.','icon':'fas fa-snowflake','priority':'High'},{'title':'Log readings','description':'Record daily values.','icon':'fas fa-book','priority':'low'}]".

Definition fenced_post : string := "
```".

Definition four_items_fenced : string :=
  fenced_pre ++ String "{" (fenced_mid ++ String "}" fenced_post).

Definition four_items : pyval :=
  PList
    [PDict [("title", PStr "Inspect bearings");
            ("description", PStr "Check wear.");
            ("icon", PStr "fas fa-cog"); ("priority", PStr "high")];
     PDict [("title", PStr "Clean filters");
            ("description", PStr "Replace clogged filters.");
            ("icon", PStr "fas fa-filter"); ("priority", PStr "medium")];
     PDict [("title", PStr "Check coolant");
            ("description", PStr "Verify the flow rate.");
            ("icon", PStr "fas fa-snowflake"); ("priority", PStr "High")];
     PDict [("title", PStr "Log readings");
            ("description", PStr "Record daily values.");
            ("icon", PStr "fas fa-book"); ("priority", PStr "low")]].

Definition three_items_payload : pyval :=
  PList
    [PDict [("title", PStr "Inspect bearings");
            ("description", PStr "Check wear.");
            ("icon", PStr "fas fa-cog"); ("priority", PStr "high")];
     PDict [("title", PStr "Clean filters");
            ("description", PStr "Replace clogged filters.");
            ("icon", PStr "fas fa-filter"); ("priority", PStr "medium")];
     PDict [("title", PStr "Log readings");
            ("description", PStr "Record daily values.");
            ("icon", PStr "fas fa-book"); ("priority", PStr "low")]].

(** Four elements, of which the second has the priority token [urgent]
    and the third neither icon nor priority. *)
Definition four_items_off_schema : string :=
  dquote "{'recommendations': [
 {'title': 'Inspect bearings', 'description': 'Check wear.', 'icon': 'fas fa-cog', 'priority': 'high'},
 {'title': 'Clean filters', 'description': 'Replace clogged filters.', 'icon': 'fas fa-filter', 'priority': 'urgent'},
 {'title': 'Check coolant', 'description': 'Verify the flow rate.'},
 {'title': 'Log readings', 'description': 'Record daily values.', 'icon': 'fas fa-book', 'priority': 'low'}]}".

Definition off_schema_payload : pyval :=
  PList
    [PDict [("title", PStr "Inspect bearings");
            ("description", PStr "Check wear.");
            ("icon", PStr "fas fa-cog"); ("priority", PStr "high")];
     PDict [("title", PStr "Clean filters");
            ("description", PStr "Replace clogged filters.");
            ("icon", PStr "fas fa-filter"); ("priority", PStr "urgent")];
     PDict [("title", PStr "Check coolant");
            ("description", PStr "Verify the flow rate.")];
     PDict [("title", PStr "Log readings");
            ("description", PStr "Record daily values.");
            ("icon", PStr "fas fa-book"); ("priority", PStr "low")]].

(** Scenario A of the specification: every block of the cascade takes its
    high-priority branch.  [five_candidates] is that cascade with the
    first dict of the pool after it. *)
Definition scenario_a {F : FloatFormat} : list recommendation :=
  cascade 300 320 2500 60 1.

Definition five_candidates {F : FloatFormat} : list recommendation :=
  scenario_a ++ firstn 1 (additional_recommendations (power_estimate 60 2500)).

(** A form with the reading of scenario A, the same form without its
    last field and with a speed that is no number, a classifier that
    answers 1 for every reading, a template that shows the banner, the
    class names as the texts of the exceptions, and a service that does
    not answer in time. *)
Definition sample_form : list (string * string) :=
  [("feature_1", "300"); ("feature_2", "320"); ("feature_3", "2500");
   ("feature_4", "60")].

Definition form_without_torque : list (string * string) :=
  [("feature_1", "300"); ("feature_2", "320"); ("feature_3", "2500")].

Definition form_with_bad_speed : list (string * string) :=
  [("feature_1", "300"); ("feature_2", "320"); ("feature_3", "fast")].

Definition always_one (_ _ _ _ : float) : reply Z := Returns 1.

Definition banner_template (name : string) (args : template_args)
  : reply string :=
  Returns (name ++ ": " ++ prediction args).

Definition exn_name (e : exn) : string :=
  match e with
  | KeyError => "KeyError"
  | IndexError => "IndexError"
  | TypeError => "TypeError"
  | AttributeError => "AttributeError"
  | ValueError => "ValueError"
  | ReadTimeout => "ReadTimeout"
  | ConnectionError => "ConnectionError"
  | RequestException => "RequestException"
  end.

Definition no_answer (_ : request) : reply response := Raises ReadTimeout.

(** Two standard outputs: one that takes every text, and one with the
    ASCII encoding, which refuses a text with a byte above 127. *)
Definition utf8_stdout (_ : string) : reply unit := Returns tt.

Fixpoint is_ascii (s : string) : bool :=
  match s with
  | EmptyString => true
  | String c s' => (N_of_ascii c <? 128)%N && is_ascii s'
  end.

Definition ascii_stdout (text : string) : reply unit :=
  if is_ascii text then Returns tt else Raises ValueError.

(** A form whose first field is a number in Han numerals, which [float]
    refuses, and the texts of the exceptions of that request: the
    [ValueError] of [float] quotes the field. *)
Definition form_with_han_numerals : list (string * string) :=
  [("feature_1", "三百"); ("feature_2", "320"); ("feature_3", "2500");
   ("feature_4", "60")].

Definition han_error_text (e : exn) : string :=
  match e with
  | ValueError => "could not convert string to float: '三百'"
  | other => exn_name other
  end.




(** A body with status 200 and no choice in it. *)
Definition empty_choices (_ : request) : reply response :=
  Returns (mkResponse 200 (Returns (PDict [("choices", PList [])]))).

(** ** Properties of the fallback engine *)

Section FallbackProperties.

Context {F : FloatFormat}.

Lemma len_append (recs : list recommendation) (r : recommendation) :
  len (append recs r) = len recs + 1.
Proof.
  unfold len, append. rewrite length_app. simpl. lia.
Qed.

(** Each block of the cascade appends one dict, of its own category. *)
Lemma thermal_step_appends (air_temp process_temp : float)
  (recs : list recommendation) :
  exists r, thermal_step air_temp process_temp recs = append recs r
            /\ category_of r = Some Thermal.
Proof.
  unfold thermal_step.
  destruct (15 <? temp_diff air_temp process_temp)%float;
    [|destruct (50 <? process_temp_c process_temp)%float];
    eexists; split; reflexivity.
Qed.

Lemma speed_step_appends (rotational_speed : float)
  (recs : list recommendation) :
  exists r, speed_step rotational_speed recs = append recs r
            /\ category_of r = Some RotationalSpeed.
Proof.
  unfold speed_step.
  destruct (2000 <? rotational_speed)%float;
    [|destruct (rotational_speed <? 1000)%float];
    eexists; split; reflexivity.
Qed.

Lemma torque_step_appends (torque : float) (recs : list recommendation) :
  exists r, torque_step torque recs = append recs r
            /\ category_of r = Some Torque.
Proof.
  unfold torque_step.
  destruct (50 <? torque)%float; [|destruct (torque <? 20)%float];
    eexists; split; reflexivity.
Qed.

Lemma urgency_step_appends (prediction_result : Z)
  (recs : list recommendation) :
  exists r, urgency_step prediction_result recs = append recs r
            /\ category_of r = Some MaintenanceUrgency.
Proof.
  unfold urgency_step.
  destruct (prediction_result =? 1); eexists; split; reflexivity.
Qed.

(** The cascade leaves four dicts, one of each category, in the order of
    the blocks. *)
Lemma cascade_shape
  (air_temp process_temp rotational_speed torque : float)
  (prediction_result : Z) :
  exists t s q u,
    cascade air_temp process_temp rotational_speed torque prediction_result
    = [t; s; q; u]
    /\ category_of t = Some Thermal
    /\ category_of s = Some RotationalSpeed
    /\ category_of q = Some Torque
    /\ category_of u = Some MaintenanceUrgency.
Proof.
  unfold cascade.
  destruct (thermal_step_appends air_temp process_temp []) as (t & -> & Ht).
  destruct (speed_step_appends rotational_speed (append [] t))
    as (s & -> & Hs).
  destruct (torque_step_appends torque (append (append [] t) s))
    as (q & -> & Hq).
  destruct (urgency_step_appends prediction_result
              (append (append (append [] t) s) q)) as (u & -> & Hu).
  exists t, s, q, u. repeat split; assumption.
Qed.

Lemma cascade_len
  (air_temp process_temp rotational_speed torque : float)
  (prediction_result : Z) :
  len (cascade air_temp process_temp rotational_speed torque
         prediction_result) = 4.
Proof.
  destruct (cascade_shape air_temp process_temp rotational_speed torque
              prediction_result) as (t & s & q & u & -> & _).
  reflexivity.
Qed.

Lemma cascade_categories
  (air_temp process_temp rotational_speed torque : float)
  (prediction_result : Z) :
  map category_of
    (cascade air_temp process_temp rotational_speed torque
       prediction_result)
  = [Some Thermal; Some RotationalSpeed; Some Torque;
     Some MaintenanceUrgency].
Proof.
  destruct (cascade_shape air_temp process_temp rotational_speed torque
              prediction_result) as (t & s & q & u & -> & Ht & Hs & Hq & Hu).
  simpl. congruence.
Qed.

(** C6. For every reading and label, each of the four [if/elif/else]
    blocks of the cascade appends exactly one candidate, of the block's own
    category, to whatever list it is given; the cascade therefore yields
    exactly four candidates: a thermal one, a rotational speed one, a
    torque one and a maintenance urgency one, in this order. *)
Theorem cascade_one_candidate_per_category
  (air_temp process_temp rotational_speed torque : float)
  (prediction_result : Z) :
  (forall recs, exists! r,
      thermal_step air_temp process_temp recs = append recs r
      /\ category_of r = Some Thermal)
  /\ (forall recs, exists! r,
        speed_step rotational_speed recs = append recs r
        /\ category_of r = Some RotationalSpeed)
  /\ (forall recs, exists! r,
        torque_step torque recs = append recs r
        /\ category_of r = Some Torque)
  /\ (forall recs, exists! r,
        urgency_step prediction_result recs = append recs r
        /\ category_of r = Some MaintenanceUrgency)
  /\ map category_of
       (cascade air_temp process_temp rotational_speed torque
          prediction_result)
     = [Some Thermal; Some RotationalSpeed; Some Torque;
        Some MaintenanceUrgency]
  /\ len (cascade air_temp process_temp rotational_speed torque
            prediction_result) = 4.
Proof.
  assert (uniq : forall (recs : list recommendation) r r',
             append recs r = append recs r' -> r = r').
  { unfold append. intros recs r r' H.
    apply app_inv_head in H. congruence. }
  repeat split.
  - intro recs.
    destruct (thermal_step_appends air_temp process_temp recs) as (r & E & C).
    exists r. split; [split; assumption|].
    intros r' [E' _]. apply (uniq recs). congruence.
  - intro recs.
    destruct (speed_step_appends rotational_speed recs) as (r & E & C).
    exists r. split; [split; assumption|].
    intros r' [E' _]. apply (uniq recs). congruence.
  - intro recs.
    destruct (torque_step_appends torque recs) as (r & E & C).
    exists r. split; [split; assumption|].
    intros r' [E' _]. apply (uniq recs). congruence.
  - intro recs.
    destruct (urgency_step_appends prediction_result recs) as (r & E & C).
    exists r. split; [split; assumption|].
    intros r' [E' _]. apply (uniq recs). congruence.
  - apply cascade_categories.
  - apply cascade_len.
Qed.

(** C7. At the thresholds the comparisons are strict: a temperature
    differential of exactly 15 does not take the high-differential branch
    (the candidate is not the cooling alert and its priority is medium or
    low); a rotational speed of exactly 2000 or exactly 1000 takes the
    normal-range branch, of priority low; a torque of exactly 50 or exactly
    20 takes the acceptable-range branch, of priority low. *)
Theorem threshold_boundaries
  (air_temp process_temp rotational_speed torque : float)
  (recs : list recommendation) :
  (temp_diff air_temp process_temp = 15%float ->
   exists r, thermal_step air_temp process_temp recs = append recs r
             /\ title r <> "Cooling System Optimization"
             /\ (priority r = "medium" \/ priority r = "low"))
  /\ (rotational_speed = 2000%float \/ rotational_speed = 1000%float ->
      speed_step rotational_speed recs
      = append recs (optimal_speed_range_monitoring rotational_speed)
      /\ priority (optimal_speed_range_monitoring rotational_speed) = "low")
  /\ (torque = 50%float \/ torque = 20%float ->
      torque_step torque recs
      = append recs (torque_load_optimization torque)
      /\ priority (torque_load_optimization torque) = "low").
Proof.
  repeat split.
  - intro H. unfold thermal_step. rewrite H.
    change (15 <? 15)%float with false. cbv iota.
    destruct (50 <? process_temp_c process_temp)%float;
      eexists; (split; [reflexivity|]); split;
      try discriminate; [left|right]; reflexivity.
  - destruct H as [-> | ->]; reflexivity.
  - destruct H as [-> | ->]; reflexivity.
Qed.

(** *** The selection step *)

Lemma count_priority_app (p : string) (a b : list recommendation) :
  count_priority p (a ++ b) = count_priority p a + count_priority p b.
Proof.
  unfold count_priority, with_priority, len.
  rewrite filter_app, length_app. lia.
Qed.

Lemma count_priority_le_len (p : string) (l : list recommendation) :
  0 <= count_priority p l <= len l.
Proof.
  unfold count_priority, with_priority, len.
  pose proof (filter_length_le (fun r => String.eqb (priority r) p) l). lia.
Qed.

Lemma count_priority_firstn (p : string) (k : nat)
  (l : list recommendation) :
  count_priority p (firstn k l) <= count_priority p l.
Proof.
  unfold count_priority, with_priority, len.
  revert k. induction l as [|r l IH]; intro k.
  - rewrite firstn_nil. simpl. lia.
  - destruct k as [|k]; simpl.
    + lia.
    + specialize (IH k).
      destruct (String.eqb (priority r) p); simpl; lia.
Qed.

Lemma count_priority_list_take (p : string) (k : Z)
  (l : list recommendation) :
  count_priority p (list_take k l) <= count_priority p l.
Proof.
  unfold list_take. apply count_priority_firstn.
Qed.

Lemma len_list_take_le {A : Type} (k : Z) (l : list A) :
  0 <= k -> len (list_take k l) <= k.
Proof.
  intro Hk. unfold len, list_take, clamp_index.
  rewrite length_firstn.
  destruct (k <? 0) eqn:E; [apply Z.ltb_lt in E; lia|]. lia.
Qed.

(** Dicts picked for one priority hold none of another. *)
Lemma count_priority_other (p p' : string) (l : list recommendation) :
  p <> p' -> count_priority p (with_priority p' l) = 0.
Proof.
  intro Hp. unfold count_priority, with_priority, len.
  induction l as [|r l IH]; simpl; [reflexivity|].
  destruct (String.eqb (priority r) p') eqn:E'; [|exact IH].
  simpl. destruct (String.eqb (priority r) p) eqn:E; [|exact IH].
  apply String.eqb_eq in E, E'. congruence.
Qed.

(** The quota keeps at most two high-priority dicts. *)
Lemma priority_quota_high (recs : list recommendation) :
  count_priority "high" (priority_quota recs) <= 2.
Proof.
  unfold priority_quota, extend. cbv zeta.
  set (h := list_take 2 (with_priority "high" recs)).
  assert (Hh : count_priority "high" h <= 2).
  { pose proof (count_priority_le_len "high" h).
    pose proof (len_list_take_le 2 (with_priority "high" recs)).
    fold h in H0. lia. }
  set (k1 := 4 - len ([] ++ h)).
  set (m := list_take k1 (with_priority "medium" recs)).
  assert (Hm : count_priority "high" m = 0).
  { pose proof (count_priority_list_take "high" k1
                  (with_priority "medium" recs)) as H.
    rewrite count_priority_other in H by discriminate.
    pose proof (count_priority_le_len "high" m). fold m in H. lia. }
  set (k2 := 4 - len (([] ++ h) ++ m)).
  assert (Hl : count_priority "high"
                 (list_take k2 (with_priority "low" recs)) = 0).
  { pose proof (count_priority_list_take "high" k2
                  (with_priority "low" recs)) as H.
    rewrite count_priority_other in H by discriminate.
    pose proof (count_priority_le_len "high"
                  (list_take k2 (with_priority "low" recs))). lia. }
  destruct (0 <? k2); rewrite ?count_priority_app;
    change (count_priority "high" []) with 0; lia.
Qed.

Lemma backfill_skipped (n : nat) (pool recs : list recommendation) :
  4 <= len recs -> backfill n pool recs = Ret recs.
Proof.
  intro H. destruct n; simpl;
    destruct (len recs <? 4) eqn:E; try reflexivity;
    apply Z.ltb_lt in E; lia.
Qed.

Lemma list_take_all {A : Type} (l : list A) : list_take (len l) l = l.
Proof.
  unfold list_take, len, clamp_index.
  destruct (Z.of_nat (List.length l) <? 0) eqn:E;
    [apply Z.ltb_lt in E; lia|].
  replace (Z.to_nat _) with (List.length l) by lia.
  apply firstn_all.
Qed.

(** *** The backfill loop ends

    With fewer than four dicts in [recommendations], one of the six dicts
    of the pool is not among them, so every iteration appends one: the
    loop needs at most four iterations, and leaves exactly four dicts
    when it starts below four. *)

Lemma rec_eqb_eq (r1 r2 : recommendation) : rec_eqb r1 r2 = true -> r1 = r2.
Proof.
  destruct r1, r2. unfold rec_eqb. simpl. intro H.
  apply andb_true_iff in H. destruct H as [H H4].
  apply andb_true_iff in H. destruct H as [H H3].
  apply andb_true_iff in H. destruct H as [H1 H2].
  apply String.eqb_eq in H1, H2, H3, H4. congruence.
Qed.

Lemma rec_in_In (r : recommendation) (recs : list recommendation) :
  rec_in r recs = true -> In r recs.
Proof.
  unfold rec_in. intro H. apply existsb_exists in H.
  destruct H as (r' & Hin & E). apply rec_eqb_eq in E. congruence.
Qed.

Lemma pool_has_fresh (pool recs : list recommendation) :
  NoDup pool -> (List.length recs < List.length pool)%nat ->
  exists r, In r pool /\ rec_in r recs = false.
Proof.
  intros ND L.
  destruct (forallb (fun r => rec_in r recs) pool) eqn:E.
  - assert (I : incl pool recs).
    { intros r Hr. apply rec_in_In.
      rewrite forallb_forall in E. apply E, Hr. }
    pose proof (NoDup_incl_length ND I). lia.
  - assert (X : existsb (fun r => negb (rec_in r recs)) pool = true).
    { clear -E. induction pool as [|r pool IH]; simpl in *; [discriminate|].
      destruct (rec_in r recs); simpl in *; [apply IH, E|reflexivity]. }
    apply existsb_exists in X. destruct X as (r & Hr & N).
    exists r. split; [assumption|]. apply negb_true_iff, N.
Qed.

Lemma for_pool_appends (pool recs : list recommendation) :
  len recs < 4 ->
  (exists r, In r pool /\ rec_in r recs = false) ->
  len (for_pool pool recs) = len recs + 1.
Proof.
  intros L (r & Hr & N).
  induction pool as [|x pool IH]; simpl; [contradiction|].
  destruct (rec_in x recs) eqn:E; simpl.
  - apply IH. destruct Hr as [-> | Hr]; [congruence|assumption].
  - destruct (len recs <? 4) eqn:E4; [apply len_append|].
    apply Z.ltb_ge in E4. lia.
Qed.

Lemma backfill_ends (pool : list recommendation) :
  NoDup pool -> (4 <= List.length pool)%nat ->
  forall (n : nat) (recs : list recommendation),
    4 - len recs <= Z.of_nat n ->
    exists out, backfill n pool recs = Ret out
                /\ (len recs < 4 -> len out = 4)
                /\ (4 <= len recs -> out = recs).
Proof.
  intros ND P n. induction n as [|n IH]; intros recs Hn.
  - exists recs. rewrite backfill_skipped by lia.
    repeat split; intros; lia || reflexivity.
  - destruct (Z.lt_ge_cases (len recs) 4) as [L | L].
    + simpl. destruct (len recs <? 4) eqn:E;
        [|apply Z.ltb_ge in E; lia].
      assert (A : len (for_pool pool recs) = len recs + 1).
      { apply for_pool_appends; [assumption|].
        apply pool_has_fresh; [assumption|]. unfold len in L. lia. }
      destruct (IH (for_pool pool recs)) as (out & B & Lt & Ge); [lia|].
      exists out. split; [assumption|]. split; [|lia].
      intros _. destruct (Z.lt_ge_cases (len (for_pool pool recs)) 4) as [X|X].
      * apply Lt, X.
      * rewrite (Ge X). lia.
    + exists recs. rewrite backfill_skipped by lia.
      repeat split; intros; lia || reflexivity.
Qed.

Lemma additional_recommendations_NoDup (power : float) :
  NoDup (additional_recommendations power)
  /\ List.length (additional_recommendations power) = 6%nat.
Proof.
  split; [|reflexivity].
  unfold additional_recommendations.
  repeat (apply NoDup_cons;
          [simpl; intro H;
           repeat (destruct H as [H | H]; [discriminate H|]); exact H|]).
  apply NoDup_nil.
Qed.

(** With the pool of the program, four units of fuel are enough for any
    candidate list, and a list that starts below four dicts leaves the
    loop with exactly four. *)
Lemma backfill_with_the_pool (power : float) (recs : list recommendation) :
  exists out,
    backfill 4 (additional_recommendations power) recs = Ret out
    /\ (len recs < 4 -> len out = 4)
    /\ (4 <= len recs -> out = recs).
Proof.
  destruct (additional_recommendations_NoDup power) as [ND L].
  apply backfill_ends; [assumption|rewrite L; lia|].
  unfold len. lia.
Qed.

Lemma select_recommendations_four (n : nat)
  (pool recs : list recommendation) :
  len recs = 4 -> select_recommendations n pool recs = Ret recs.
Proof.
  intro H. unfold select_recommendations.
  rewrite backfill_skipped by lia. simpl bind.
  rewrite H. change (4 <? 4) with false. cbv iota.
  rewrite <- H at 1. rewrite list_take_all. reflexivity.
Qed.

Lemma select_recommendations_above_four (n : nat)
  (pool recs : list recommendation) :
  4 < len recs ->
  select_recommendations n pool recs
  = Ret (list_take 4 (priority_quota recs)).
Proof.
  intro H. unfold select_recommendations.
  rewrite backfill_skipped by lia. simpl bind.
  destruct (4 <? len recs) eqn:E; [reflexivity|].
  apply Z.ltb_ge in E. lia.
Qed.

Variable fuel : nat.

(** The fallback function hands back the four dicts of the cascade. *)
Lemma get_default_recommendations_cascade
  (air_temp process_temp rotational_speed torque : float)
  (prediction_result : Z) :
  get_default_recommendations fuel air_temp process_temp rotational_speed
    torque prediction_result
  = Ret (cascade air_temp process_temp rotational_speed torque
           prediction_result).
Proof.
  unfold get_default_recommendations.
  apply select_recommendations_four, cascade_len.
Qed.

(** C2, as the code has it. The quota of at most two high-priority dicts
    is applied to a candidate list of more than four dicts only: for such
    a list the selection step returns at most two high-priority dicts.  A
    candidate list of exactly four dicts is returned as it is, whatever
    its priorities; so the four candidates of the cascade are returned
    unchanged, and nothing is taken from the pool. *)
Theorem quota_applies_above_four_only (n : nat)
  (pool recs : list recommendation) :
  (4 < len recs ->
   exists out, select_recommendations n pool recs = Ret out
               /\ count_priority "high" out <= 2)
  /\ (len recs = 4 -> select_recommendations n pool recs = Ret recs).
Proof.
  split.
  - intro H. eexists. split.
    + apply select_recommendations_above_four, H.
    + pose proof (count_priority_list_take "high" 4 (priority_quota recs)).
      pose proof (priority_quota_high recs). lia.
  - apply select_recommendations_four.
Qed.

(** C10. For every reading and label the fallback function returns
    precisely the four candidates of the cascade, in the order thermal,
    rotational speed, torque, maintenance urgency.  The cascade leaves the
    list at length four, so the backfill loop returns at once, with no
    fuel and whatever the pool, the quota branch is not taken, and up to
    four of the returned dicts may have priority high: all four do for
    the reading (300, 320, 2500, 60) with label 1. *)
Theorem default_recommendations_are_the_cascade
  (air_temp process_temp rotational_speed torque : float)
  (prediction_result : Z) :
  let candidates :=
    cascade air_temp process_temp rotational_speed torque
      prediction_result in
  get_default_recommendations fuel air_temp process_temp rotational_speed
    torque prediction_result = Ret candidates
  /\ map category_of candidates
     = [Some Thermal; Some RotationalSpeed; Some Torque;
        Some MaintenanceUrgency]
  /\ (forall pool, backfill 0 pool candidates = Ret candidates)
  /\ (4 <? len candidates) = false
  /\ count_priority "high" candidates <= 4
  /\ (exists recs,
        get_default_recommendations fuel 300 320 2500 60 1 = Ret recs
        /\ count_priority "high" recs = 4).
Proof.
  cbv zeta.
  pose proof (cascade_len air_temp process_temp rotational_speed torque
                prediction_result) as L.
  repeat split.
  - apply get_default_recommendations_cascade.
  - apply cascade_categories.
  - intro pool. apply backfill_skipped. lia.
  - rewrite L. reflexivity.
  - pose proof (count_priority_le_len "high"
                  (cascade air_temp process_temp rotational_speed torque
                     prediction_result)). lia.
  - eexists. split.
    + apply get_default_recommendations_cascade.
    + reflexivity.
Qed.

End FallbackProperties.

(** ** Properties of the extraction of the JSON text *)

Lemma str_len_cons (a : ascii) (s : string) :
  str_len (String a s) = str_len s + 1.
Proof. unfold str_len. simpl String.length. lia. Qed.

Lemma str_len_app (s t : string) : str_len (s ++ t) = str_len s + str_len t.
Proof.
  induction s as [|a s IH].
  - reflexivity.
  - change (String a s ++ t)%string with (String a (s ++ t)).
    rewrite !str_len_cons, IH. lia.
Qed.

Lemma str_append_assoc (a b c : string) :
  ((a ++ b) ++ c)%string = (a ++ (b ++ c))%string.
Proof.
  induction a as [|x a IH]; simpl; [reflexivity|]. rewrite IH. reflexivity.
Qed.

Lemma str_len_nonneg (s : string) : 0 <= str_len s.
Proof. unfold str_len. lia. Qed.

Lemma str_find_range (c : ascii) (s : string) :
  str_find c s = -1 \/ 0 <= str_find c s < str_len s.
Proof.
  induction s as [|a s IH]; simpl.
  - left. reflexivity.
  - rewrite str_len_cons. pose proof (str_len_nonneg s).
    destruct (Ascii.eqb a c); [right; lia|].
    destruct IH as [-> | IH].
    + left. reflexivity.
    + destruct (str_find c s <? 0) eqn:E; [apply Z.ltb_lt in E; lia|].
      right. lia.
Qed.

Lemma str_rfind_range (c : ascii) (s : string) :
  str_rfind c s = -1 \/ 0 <= str_rfind c s < str_len s.
Proof.
  induction s as [|a s IH]; simpl.
  - left. reflexivity.
  - rewrite str_len_cons. pose proof (str_len_nonneg s).
    destruct IH as [-> | IH].
    + change (0 <=? -1) with false. cbv iota.
      destruct (Ascii.eqb a c); [right; lia|left; reflexivity].
    + destruct (0 <=? str_rfind c s) eqn:E; [right; lia|].
      apply Z.leb_gt in E. lia.
Qed.

Lemma str_find_absent (c : ascii) (s : string) :
  occurs c s = false -> str_find c s = -1.
Proof.
  induction s as [|a s IH]; simpl; [reflexivity|].
  intro H. apply orb_false_iff in H. destruct H as [-> H].
  rewrite (IH H). reflexivity.
Qed.

Lemma str_rfind_absent (c : ascii) (s : string) :
  occurs c s = false -> str_rfind c s = -1.
Proof.
  induction s as [|a s IH]; simpl; [reflexivity|].
  intro H. apply orb_false_iff in H. destruct H as [-> H].
  rewrite (IH H). reflexivity.
Qed.

(** The first occurrence: [find] is the length of what stands before it. *)
Lemma str_find_first (c : ascii) (pre rest : string) :
  occurs c pre = false ->
  str_find c (pre ++ String c rest) = str_len pre.
Proof.
  induction pre as [|a pre IH]; simpl; intro H.
  - rewrite Ascii.eqb_refl. reflexivity.
  - apply orb_false_iff in H. destruct H as [-> H].
    rewrite (IH H), str_len_cons. pose proof (str_len_nonneg pre).
    destruct (str_len pre <? 0) eqn:E; [apply Z.ltb_lt in E; lia|].
    reflexivity.
Qed.

(** The last occurrence: [rfind] is the length of what stands before it. *)
Lemma str_rfind_last (c : ascii) (s post : string) :
  occurs c post = false ->
  str_rfind c (s ++ String c post) = str_len s.
Proof.
  intro H. induction s as [|a s IH]; simpl.
  - rewrite (str_rfind_absent _ _ H). change (0 <=? -1) with false.
    cbv iota. rewrite Ascii.eqb_refl. reflexivity.
  - rewrite IH, str_len_cons. pose proof (str_len_nonneg s).
    destruct (0 <=? str_len s) eqn:E; [reflexivity|].
    apply Z.leb_gt in E. lia.
Qed.

Lemma str_find_split (c : ascii) (s : string) :
  0 <= str_find c s ->
  exists pre rest, s = pre ++ String c rest /\ occurs c pre = false.
Proof.
  induction s as [|a s IH]; simpl.
  - lia.
  - destruct (Ascii.eqb a c) eqn:E.
    + intros _. apply Ascii.eqb_eq in E. subst a.
      exists EmptyString, s. split; reflexivity.
    + destruct (str_find c s <? 0) eqn:E'; [lia|].
      apply Z.ltb_ge in E'. intros _.
      destruct (IH E') as (pre & rest & -> & Hpre).
      exists (String a pre), rest. split; [reflexivity|].
      simpl. rewrite E, Hpre. reflexivity.
Qed.

Lemma occurs_split_last (c : ascii) (s : string) :
  occurs c s = true ->
  exists a b, s = a ++ String c b /\ occurs c b = false.
Proof.
  induction s as [|x s IH]; simpl; [discriminate|].
  destruct (occurs c s) eqn:O.
  - intros _. destruct (IH eq_refl) as (a & b & -> & Hb).
    exists (String x a), b. split; [reflexivity|assumption].
  - rewrite orb_false_r. intro E. apply Ascii.eqb_eq in E. subst x.
    exists EmptyString, s. split; [reflexivity|assumption].
Qed.

Lemma str_rfind_app_absent (c : ascii) (s t : string) :
  occurs c t = false -> str_rfind c (s ++ t) = str_rfind c s.
Proof.
  intro H. induction s as [|a s IH]; simpl.
  - apply str_rfind_absent, H.
  - rewrite IH. reflexivity.
Qed.

Lemma substring_none (n : nat) (s : string) : substring n 0 s = EmptyString.
Proof.
  revert n. induction s as [|a s IH]; intro n; destruct n; simpl;
    try reflexivity. apply IH.
Qed.

Lemma substring_prefix (m rest : string) :
  substring 0 (String.length m) (m ++ rest) = m.
Proof.
  induction m as [|a m IH]; simpl.
  - destruct rest; reflexivity.
  - rewrite IH. reflexivity.
Qed.

Lemma substring_middle (pre m post : string) :
  substring (String.length pre) (String.length m) (pre ++ m ++ post) = m.
Proof.
  induction pre as [|a pre IH]; simpl.
  - apply substring_prefix.
  - exact IH.
Qed.

(** A slice between two offsets that enclose [m] is [m]. *)
Lemma str_slice_middle (pre m post : string) :
  str_slice (pre ++ m ++ post) (str_len pre) (str_len pre + str_len m) = m.
Proof.
  unfold str_slice, clamp_index. rewrite !str_len_app.
  pose proof (str_len_nonneg pre). pose proof (str_len_nonneg m).
  pose proof (str_len_nonneg post).
  destruct (str_len pre <? 0) eqn:E1; [apply Z.ltb_lt in E1; lia|].
  destruct (str_len pre + str_len m <? 0) eqn:E2;
    [apply Z.ltb_lt in E2; lia|].
  replace (Z.to_nat (Z.max 0 (Z.min _ (str_len pre))))
    with (String.length pre) by (unfold str_len in *; lia).
  replace (Z.to_nat _) with (String.length m) by (unfold str_len in *; lia).
  apply substring_middle.
Qed.

(** A slice whose upper bound does not exceed its lower bound is empty. *)
Lemma str_slice_empty (s : string) (a b : Z) :
  clamp_index (str_len s) b <= clamp_index (str_len s) a ->
  str_slice s a b = EmptyString.
Proof.
  intro H. unfold str_slice. cbv zeta.
  replace (Z.to_nat (clamp_index (str_len s) b - clamp_index (str_len s) a))
    with 0%nat by lia.
  apply substring_none.
Qed.

(** The text from the first opening brace to the last closing brace. *)
Lemma extract_json_enclosed (pre mid post : string) :
  occurs "{" pre = false ->
  occurs "}" post = false ->
  extract_json (pre ++ String "{" (mid ++ String "}" post))
  = String "{" (mid ++ String "}" EmptyString).
Proof.
  intros Hpre Hpost. unfold extract_json.
  rewrite (str_find_first _ _ _ Hpre).
  set (m := String "{" (mid ++ String "}" EmptyString)).
  assert (E : (pre ++ String "{" (mid ++ String "}" post)
               = pre ++ m ++ post)%string).
  { unfold m. simpl. f_equal. f_equal.
    rewrite str_append_assoc. reflexivity. }
  assert (R : str_rfind "}" (pre ++ String "{" (mid ++ String "}" post))
              = str_len pre + str_len m - 1).
  { replace (pre ++ String "{" (mid ++ String "}" post))%string
      with ((pre ++ String "{" mid) ++ String "}" post)%string.
    - rewrite (str_rfind_last _ _ _ Hpost). unfold m.
      rewrite !str_len_app, !str_len_cons, str_len_app, str_len_cons.
      change (str_len EmptyString) with 0. lia.
    - rewrite str_append_assoc. reflexivity. }
  rewrite R, E.
  replace (str_len pre + str_len m - 1 + 1)
    with (str_len pre + str_len m) by lia.
  apply str_slice_middle.
Qed.


(** ** Properties of the orchestrator *)

Section OrchestratorProperties.

Context {F : FloatFormat}.
Variable fuel : nat.
Variable GROQ_API_KEY : option string.
Variable requests_post : request -> reply response.
Variable json_loads : string -> reply pyval.

Lemma bind_finished {A B : Type} (c : outcome A) (k : A -> outcome B) :
  finished c -> (forall a, finished (k a)) -> finished (bind c k).
Proof.
  unfold finished. intros Hc Hk. destruct c; simpl; auto. discriminate.
Qed.

Lemma call_finished {A : Type} (r : reply A) : finished (call r).
Proof. destruct r; discriminate. Qed.

Lemma getitem_key_finished (v : pyval) (k : string) :
  finished (getitem_key v k).
Proof.
  destruct v; try discriminate. simpl.
  destruct (dict_get d k); discriminate.
Qed.

Lemma seq_index_finished {A : Type} (l : list A) (i : Z) :
  finished (seq_index l i).
Proof.
  unfold seq_index. cbv zeta.
  destruct (_ || _); [discriminate|].
  destruct (nth_error _ _); discriminate.
Qed.

Lemma getitem_int_finished (v : pyval) (i : Z) : finished (getitem_int v i).
Proof.
  destruct v; try discriminate; simpl.
  - apply bind_finished; [apply seq_index_finished|discriminate].
  - apply seq_index_finished.
Qed.

Lemma message_content_finished (result : pyval) :
  finished (message_content result).
Proof.
  unfold message_content.
  repeat (apply bind_finished;
          [first [apply getitem_key_finished|apply getitem_int_finished]
          |intro]).
  apply getitem_key_finished.
Qed.

Lemma parse_content_finished (content : pyval) :
  finished (parse_content json_loads content).
Proof.
  destruct content; try discriminate. simpl.
  apply bind_finished; [apply call_finished|intro].
  apply getitem_key_finished.
Qed.

Section OneRequest.

Variables air_temp process_temp rotational_speed torque : float.
Variable prediction_result : Z.

Let fb : outcome pyval :=
  fallback fuel air_temp process_temp rotational_speed torque
    prediction_result.

Let req : request :=
  build_request GROQ_API_KEY air_temp process_temp rotational_speed torque
    prediction_result.

Let ai : outcome pyval :=
  get_ai_recommendations fuel GROQ_API_KEY requests_post json_loads
    air_temp process_temp rotational_speed torque prediction_result.

(** The fallback returns the four dicts of the cascade. *)
Lemma fallback_value :
  fb = Ret (recs_to_py
              (cascade air_temp process_temp rotational_speed torque
                 prediction_result)).
Proof.
  unfold fb, fallback. rewrite get_default_recommendations_cascade.
  reflexivity.
Qed.

(** The function by cases on what the remote service and the decoder
    hand back. *)
Lemma get_ai_recommendations_cases :
  ai = match requests_post req with
       | Raises _ => fb
       | Returns response =>
           if status_code response =? 200 then
             match json_body response with
             | Raises _ => fb
             | Returns result =>
                 match message_content result with
                 | Ret content =>
                     match parse_content json_loads content with
                     | Ret v => Ret v
                     | _ => fb
                     end
                 | _ => fb
                 end
             end
           else fb
       end.
Proof.
  unfold ai, get_ai_recommendations. fold req. fold fb.
  pose proof fallback_value as V.
  destruct (requests_post req) as [response|e]; simpl; [|reflexivity].
  destruct (status_code response =? 200); [|rewrite V; reflexivity].
  destruct (json_body response) as [result|e]; simpl; [|reflexivity].
  pose proof (message_content_finished result) as M.
  destruct (message_content result) as [content|e|]; simpl;
    [|reflexivity|contradiction M; reflexivity].
  pose proof (parse_content_finished content) as P.
  destruct (parse_content json_loads content) as [v|e|]; simpl;
    [reflexivity|rewrite V; reflexivity|contradiction P; reflexivity].
Qed.

(** When the service answered with a message content, the function is the
    inner [try]. *)
Lemma get_ai_recommendations_on_content (content : pyval) :
  remote_replies GROQ_API_KEY requests_post air_temp process_temp
    rotational_speed torque prediction_result content ->
  ai = match parse_content json_loads content with
       | Ret v => Ret v
       | _ => fb
       end.
Proof.
  intros (response & result & Hpost & Hstatus & Hbody & Hcontent).
  rewrite get_ai_recommendations_cases. fold req in Hpost.
  rewrite Hpost, Hstatus, Hbody, Hcontent. reflexivity.
Qed.

(** C4. Whatever goes wrong with the remote call, the function returns
    what the rule-based fallback returns: when the request raises (a
    timeout, a connection error, any other exception), when the status is
    not 200 (every non-2xx status among them), when [response.json()]
    raises, when the body has no message content at the expected place,
    and when extracting or decoding the content or reading its
    [recommendations] key raises.  The fallback result is a list of four
    dicts, and in every case at all the caller receives a value: no
    exception leaves the function. *)
Theorem remote_failure_falls_back :
  (forall e, requests_post req = Raises e -> ai = fb)
  /\ (forall response,
        requests_post req = Returns response ->
        status_code response <> 200 -> ai = fb)
  /\ (forall response e,
        requests_post req = Returns response ->
        json_body response = Raises e -> ai = fb)
  /\ (forall response result e,
        requests_post req = Returns response ->
        json_body response = Returns result ->
        message_content result = Raise e -> ai = fb)
  /\ (forall content e,
        remote_replies GROQ_API_KEY requests_post air_temp process_temp
          rotational_speed torque prediction_result content ->
        parse_content json_loads content = Raise e -> ai = fb)
  /\ (exists recs, fb = Ret (recs_to_py recs) /\ len recs = 4)
  /\ (exists v, ai = Ret v).
Proof.
  pose proof get_ai_recommendations_cases as C.
  pose proof fallback_value as V.
  repeat split.
  - intros e H. rewrite C, H. reflexivity.
  - intros response H S. rewrite C, H.
    destruct (status_code response =? 200) eqn:E; [|reflexivity].
    apply Z.eqb_eq in E. contradiction.
  - intros response e H B. rewrite C, H, B.
    destruct (status_code response =? 200); reflexivity.
  - intros response result e H B M. rewrite C, H, B, M.
    destruct (status_code response =? 200); reflexivity.
  - intros content e R P.
    rewrite (get_ai_recommendations_on_content content R), P. reflexivity.
  - eexists. split; [exact V|]. apply cascade_len.
  - rewrite C, V.
    destruct (requests_post req) as [response|e]; [|eexists; reflexivity].
    destruct (status_code response =? 200); [|eexists; reflexivity].
    destruct (json_body response) as [result|e]; [|eexists; reflexivity].
    destruct (message_content result) as [content|e|];
      try (eexists; reflexivity).
    destruct (parse_content json_loads content) as [v|e|];
      eexists; reflexivity.
Qed.

(** C5, as the code has it. The code never tests the credential. When
    [GROQ_API_KEY] is absent the request is still issued, with the header
    [Authorization: Bearer None]; no error is raised and the caller
    receives a value; the fallback is returned when that request raises or
    answers with a status other than 200, and the payload of the remote
    service is returned when it answers with content that parses. *)
Theorem absent_key_is_sent_as_bearer_none :
  GROQ_API_KEY = None ->
  headers req = [("Authorization", "Bearer None");
                 ("Content-Type", "application/json")]
  /\ (forall e, requests_post req = Raises e -> ai = fb)
  /\ (forall response,
        requests_post req = Returns response ->
        status_code response <> 200 -> ai = fb)
  /\ (forall content v,
        remote_replies GROQ_API_KEY requests_post air_temp process_temp
          rotational_speed torque prediction_result content ->
        parse_content json_loads content = Ret v -> ai = Ret v)
  /\ (exists v, ai = Ret v).
Proof.
  intro K.
  pose proof get_ai_recommendations_cases as C.
  pose proof fallback_value as V.
  repeat split.
  - unfold req, build_request. rewrite K. reflexivity.
  - intros e H. rewrite C, H. reflexivity.
  - intros response H S. rewrite C, H.
    destruct (status_code response =? 200) eqn:E; [|reflexivity].
    apply Z.eqb_eq in E. contradiction.
  - intros content v R P.
    rewrite (get_ai_recommendations_on_content content R), P. reflexivity.
  - rewrite C, V.
    destruct (requests_post req) as [response|e]; [|eexists; reflexivity].
    destruct (status_code response =? 200); [|eexists; reflexivity].
    destruct (json_body response) as [result|e]; [|eexists; reflexivity].
    destruct (message_content result) as [content|e|];
      try (eexists; reflexivity).
    destruct (parse_content json_loads content) as [v|e|];
      eexists; reflexivity.
Qed.

(** C3, as the code has it. For every raw response text, the parse step
    fails, and the rule-based fallback is returned, when the text between
    the first opening and the last closing brace does not decode, when the
    decoded value is not a dict, and when it has no [recommendations]
    key.  A decoded payload whose [recommendations] value is a sequence of
    four elements is accepted and returned as it is: the code does not
    look at the elements, neither for the keys [title], [description],
    [icon] and [priority] nor for the priority token. *)
Theorem parse_checks_only_the_recommendations_key (content : string) :
  remote_replies GROQ_API_KEY requests_post air_temp process_temp
    rotational_speed torque prediction_result (PStr content) ->
  (forall e, json_loads (extract_json content) = Raises e -> ai = fb)
  /\ (forall data e,
        json_loads (extract_json content) = Returns data ->
        getitem_key data "recommendations" = Raise e -> ai = fb)
  /\ (forall d,
        json_loads (extract_json content) = Returns (PDict d) ->
        dict_get d "recommendations" = None -> ai = fb)
  /\ (forall d l,
        json_loads (extract_json content) = Returns (PDict d) ->
        dict_get d "recommendations" = Some (PList l) ->
        len l = 4 -> ai = Ret (PList l)).
Proof.
  intro R. rewrite (get_ai_recommendations_on_content _ R).
  unfold parse_content. repeat split.
  - intros e H. rewrite H. reflexivity.
  - intros data e H G. rewrite H. simpl. rewrite G. reflexivity.
  - intros d H G. rewrite H. simpl. rewrite G. reflexivity.
  - intros d l H G _. rewrite H. simpl. rewrite G. reflexivity.
Qed.


End OneRequest.

End OrchestratorProperties.

(** ** The properties on concrete inputs *)

(** C1. The four-item guarantee fails on the AI path: for a remote
    service that answers with status 200 and a well-formed payload of
    three recommendations, [get_ai_recommendations] returns that payload,
    a list of three dicts. *)
Theorem ai_path_returns_three_items :
  get_ai_recommendations (F := python_format) 0 (Some "gsk_key")
    (reply_with_content three_items) python_json_loads 300 320 2500 60 1
  = Ret three_items_payload
  /\ py_len three_items_payload = Ret 3.
Proof. split; vm_compute; reflexivity. Qed.

(** Against C2 as the specification states it: the four candidates of
    scenario A are four high-priority dicts, and the selection step
    returns all four. *)
Lemma four_high_candidates_are_kept :
  4 <= len (scenario_a (F := python_format))
  /\ 2 <= count_priority "high" (scenario_a (F := python_format))
  /\ exists out,
       select_recommendations 4
         (additional_recommendations (F := python_format)
            (power_estimate 60 2500))
         (scenario_a (F := python_format)) = Ret out
       /\ count_priority "high" out = 4
       /\ ~ count_priority "high" out <= 2.
Proof.
  split; [vm_compute; discriminate|].
  split; [vm_compute; discriminate|].
  eexists. split; [vm_compute; reflexivity|].
  split; [vm_compute; reflexivity|].
  vm_compute. intro H. apply H. reflexivity.
Qed.

Lemma quota_applies_above_four_only_witness :
  (4 < len (five_candidates (F := python_format))
   /\ exists out,
        select_recommendations 0
          (additional_recommendations (F := python_format)
             (power_estimate 60 2500))
          (five_candidates (F := python_format))
        = Ret out
        /\ count_priority "high" out <= 2)
  /\ (len (scenario_a (F := python_format)) = 4
      /\ select_recommendations 0
           (additional_recommendations (F := python_format)
              (power_estimate 60 2500))
           (scenario_a (F := python_format))
         = Ret scenario_a).
Proof.
  split; split.
  - reflexivity.
  - apply (proj1 (quota_applies_above_four_only 0
                    (additional_recommendations (power_estimate 60 2500))
                    five_candidates)).
    reflexivity.
  - reflexivity.
  - apply (proj2 (quota_applies_above_four_only 0
                    (additional_recommendations (power_estimate 60 2500))
                    scenario_a)).
    reflexivity.
Defined.

Lemma threshold_boundaries_witness :
  temp_diff 300 315 = 15%float
  /\ (exists r,
        thermal_step (F := python_format) 300 315 [] = append [] r
        /\ title r <> "Cooling System Optimization"
        /\ (priority r = "medium" \/ priority r = "low"))
  /\ speed_step (F := python_format) 2000 []
     = append [] (optimal_speed_range_monitoring 2000)
  /\ torque_step (F := python_format) 20 []
     = append [] (torque_load_optimization 20).
Proof.
  pose proof (threshold_boundaries (F := python_format) 300 315 2000 20 [])
    as (T & S & Q).
  split; [reflexivity|].
  split; [apply T; reflexivity|].
  split; [apply S; left; reflexivity|apply Q; right; reflexivity].
Defined.

(** Against C3 as the specification states it: a payload of four
    elements that is off the schema (a priority token [urgent], an element
    with neither icon nor priority) is accepted and returned, not replaced
    by the fallback. *)
Lemma off_schema_payload_is_accepted :
  valid_payload off_schema_payload = false
  /\ get_ai_recommendations (F := python_format) 0 (Some "gsk_key")
       (reply_with_content four_items_off_schema) python_json_loads
       300 320 2500 60 1
     = Ret off_schema_payload
  /\ fallback (F := python_format) 0 300 320 2500 60 1
     <> Ret off_schema_payload.
Proof.
  split; [reflexivity|]. split; [vm_compute; reflexivity|].
  vm_compute. discriminate.
Qed.

Lemma reply_with_content_replies {F : FloatFormat} (key : option string)
  (content : string) (air_temp process_temp rotational_speed torque : float)
  (prediction_result : Z) :
  remote_replies key (reply_with_content content) air_temp process_temp
    rotational_speed torque prediction_result (PStr content).
Proof.
  unfold remote_replies, reply_with_content.
  eexists. eexists. repeat split.
Qed.

Lemma parse_checks_only_the_recommendations_key_witness :
  remote_replies (F := python_format) (Some "gsk_key")
    (reply_with_content four_items_off_schema) 300 320 2500 60 1
    (PStr four_items_off_schema)
  /\ get_ai_recommendations (F := python_format) 0 (Some "gsk_key")
       (reply_with_content four_items_off_schema) python_json_loads
       300 320 2500 60 1
     = Ret off_schema_payload.
Proof.
  split.
  - apply reply_with_content_replies.
  - apply (proj2 (proj2 (proj2
             (parse_checks_only_the_recommendations_key
                (F := python_format) 0 (Some "gsk_key")
                (reply_with_content four_items_off_schema)
                python_json_loads 300 320 2500 60 1 four_items_off_schema
                (reply_with_content_replies _ _ _ _ _ _ _))))
           [("recommendations", off_schema_payload)]).
    + vm_compute. reflexivity.
    + reflexivity.
    + reflexivity.
Defined.

Lemma remote_failure_falls_back_witness :
  get_ai_recommendations (F := python_format) 0 (Some "gsk_key")
    (fun _ => Raises ReadTimeout) python_json_loads 300 320 2500 60 1
  = fallback (F := python_format) 0 300 320 2500 60 1
  /\ get_ai_recommendations (F := python_format) 0 (Some "gsk_key")
       (fun _ => Returns (mkResponse 503 (Raises ValueError)))
       python_json_loads 300 320 2500 60 1
     = fallback (F := python_format) 0 300 320 2500 60 1.
Proof.
  split.
  - apply (proj1 (remote_failure_falls_back (F := python_format) 0
                    (Some "gsk_key") (fun _ => Raises ReadTimeout)
                    python_json_loads 300 320 2500 60 1) ReadTimeout).
    reflexivity.
  - apply (proj1 (proj2 (remote_failure_falls_back (F := python_format) 0
                    (Some "gsk_key")
                    (fun _ => Returns (mkResponse 503 (Raises ValueError)))
                    python_json_loads 300 320 2500 60 1))
             (mkResponse 503 (Raises ValueError))).
    + reflexivity.
    + discriminate.
Defined.

(** Against C5 as the specification states it: with no credential the
    request is still issued, and a service that answers it with status 200
    and a parsable payload gets that payload returned, not the fallback. *)
Lemma absent_key_reaches_the_ai_path :
  get_ai_recommendations (F := python_format) 0 None
    (reply_with_content four_items_fenced) python_json_loads
    300 320 2500 60 1
  = Ret four_items
  /\ fallback (F := python_format) 0 300 320 2500 60 1 <> Ret four_items.
Proof.
  split; [vm_compute; reflexivity|]. vm_compute. discriminate.
Qed.

Lemma absent_key_is_sent_as_bearer_none_witness :
  headers (build_request (F := python_format) None 300 320 2500 60 1)
  = [("Authorization", "Bearer None"); ("Content-Type", "application/json")]
  /\ exists v,
       get_ai_recommendations (F := python_format) 0 None
         (fun _ => Returns (mkResponse 401 (Raises ValueError)))
         python_json_loads 300 320 2500 60 1 = Ret v.
Proof.
  pose proof (absent_key_is_sent_as_bearer_none (F := python_format) 0 None
                (fun _ => Returns (mkResponse 401 (Raises ValueError)))
                python_json_loads 300 320 2500 60 1 eq_refl)
    as (H & _ & _ & _ & V).
  split; [exact H|exact V].
Defined.



(** C9, as the code has it. The differential is the process temperature
    minus the air temperature, the Celsius values are the Kelvin values
    minus 273.15, and the estimated power is torque times rotational speed
    times 2 times 3.14159, divided by 60000: the circle constant is the
    five-decimal approximation 3.14159, which is below [math.pi]. *)
Theorem derived_metrics_use_approximate_pi
  (air_temp process_temp rotational_speed torque : float) :
  let m := derive 3.14159 air_temp process_temp rotational_speed torque in
  temp_diff air_temp process_temp = tempDiffK m
  /\ air_temp_c air_temp = airTempC m
  /\ process_temp_c process_temp = processTempC m
  /\ power_estimate torque rotational_speed = estimatedPowerKw m
  /\ temp_diff air_temp process_temp = (process_temp - air_temp)%float
  /\ air_temp_c air_temp = (air_temp - 273.15)%float
  /\ process_temp_c process_temp = (process_temp - 273.15)%float
  /\ power_estimate torque rotational_speed
     = ((torque * rotational_speed * 2 * 3.14159) / 60000)%float
  /\ (3.14159 <? math_pi)%float = true.
Proof. cbv zeta. repeat split. Qed.

(** Against C9 as the specification states it: for a torque of 60 and a
    speed of 2500 the code computes 15.70795, and the formula with the
    exact conversion factor gives 15.707963267948966. *)
Lemma power_estimate_is_not_exact :
  power_estimate 60 2500 = 15.70795%float
  /\ estimatedPowerKw (derive math_pi 300 320 2500 60)
     = 15.707963267948966%float
  /\ power_estimate 60 2500
     <> estimatedPowerKw (derive math_pi 300 320 2500 60).
Proof.
  split; [reflexivity|]. split; [reflexivity|].
  intro H.
  apply (f_equal (fun x => PrimFloat.eqb x 15.70795%float)) in H.
  vm_compute in H. discriminate.
Qed.

(** ** Further properties of the fallback engine *)

Section FallbackCoverage.

Context {F : FloatFormat}.
Variable fuel : nat.

(** X1. The priorities of the returned dicts count the thresholds that are
    exceeded: the number of high-priority dicts is the number of alarms
    among differential above 15, speed above 2000, torque above 50 and
    label 1; the number of medium-priority dicts is the number of
    second branches taken; the three counts add up to four. *)
Theorem priorities_count_the_alarms
  (air_temp process_temp rotational_speed torque : float)
  (prediction_result : Z) :
  exists recs,
    get_default_recommendations fuel air_temp process_temp rotational_speed
      torque prediction_result = Ret recs
    /\ count_priority "high" recs
       = Z.b2z (15 <? temp_diff air_temp process_temp)%float
         + Z.b2z (2000 <? rotational_speed)%float
         + Z.b2z (50 <? torque)%float
         + Z.b2z (prediction_result =? 1)
    /\ count_priority "medium" recs
       = Z.b2z (negb (15 <? temp_diff air_temp process_temp)%float
                && (50 <? process_temp_c process_temp)%float)
         + Z.b2z (negb (2000 <? rotational_speed)%float
                  && (rotational_speed <? 1000)%float)
         + Z.b2z (negb (50 <? torque)%float && (torque <? 20)%float)
    /\ count_priority "high" recs + count_priority "medium" recs
       + count_priority "low" recs = 4.
Proof.
  eexists. split; [apply get_default_recommendations_cascade|].
  unfold cascade, thermal_step, speed_step, torque_step, urgency_step.
  destruct (15 <? temp_diff air_temp process_temp)%float;
    destruct (50 <? process_temp_c process_temp)%float;
    destruct (2000 <? rotational_speed)%float;
    destruct (rotational_speed <? 1000)%float;
    destruct (50 <? torque)%float; destruct (torque <? 20)%float;
    destruct (prediction_result =? 1);
    repeat split.
Qed.

Lemma category_of_title (r r' : recommendation) :
  title r = title r' -> category_of r = category_of r'.
Proof. unfold category_of. intros ->. reflexivity. Qed.

Lemma pool_has_no_category (power : float) (r : recommendation) :
  In r (additional_recommendations power) -> category_of r = None.
Proof.
  unfold additional_recommendations. simpl.
  intros H. repeat (destruct H as [<- | H]; [reflexivity|]). contradiction.
Qed.

(** X2. The four returned dicts have four different titles, and none of
    them is one of the six dicts of the auxiliary pool: the fallback
    function never returns a pool recommendation. *)
Theorem default_recommendations_never_use_the_pool
  (air_temp process_temp rotational_speed torque : float)
  (prediction_result : Z) :
  exists recs,
    get_default_recommendations fuel air_temp process_temp rotational_speed
      torque prediction_result = Ret recs
    /\ NoDup (map title recs)
    /\ (forall power r,
          In r recs -> ~ In r (additional_recommendations power)).
Proof.
  eexists. split; [apply get_default_recommendations_cascade|].
  destruct (cascade_shape air_temp process_temp rotational_speed torque
              prediction_result) as (t & s & q & u & -> & Ht & Hs & Hq & Hu).
  split.
  - simpl.
    repeat constructor; simpl; intuition;
      match goal with
      | H : title ?a = title ?b |- _ =>
          apply category_of_title in H; congruence
      end.
  - intros power r Hin Hpool.
    apply pool_has_no_category in Hpool.
    simpl in Hin. destruct Hin as [<- | [<- | [<- | [<- | []]]]]; congruence.
Qed.

(** X4. The label matters only through the test [== 1], and only for the
    last dict: two labels other than 1 (say 0 and 2) give the same four
    dicts; whatever the labels, the first three dicts are the same; and
    the last dict does not depend on the reading. *)
Theorem label_only_decides_the_last_dict
  (air_temp process_temp rotational_speed torque : float)
  (air_temp' process_temp' rotational_speed' torque' : float)
  (label label' : Z) :
  (label <> 1 -> label' <> 1 ->
   get_default_recommendations fuel air_temp process_temp rotational_speed
     torque label
   = get_default_recommendations fuel air_temp process_temp rotational_speed
       torque label')
  /\ (exists a b c u u',
        get_default_recommendations fuel air_temp process_temp
          rotational_speed torque label = Ret [a; b; c; u]
        /\ get_default_recommendations fuel air_temp process_temp
             rotational_speed torque label' = Ret [a; b; c; u']
        /\ exists a' b' c',
             get_default_recommendations fuel air_temp' process_temp'
               rotational_speed' torque' label = Ret [a'; b'; c'; u]).
Proof.
  rewrite !get_default_recommendations_cascade.
  unfold cascade. split.
  - intros N N'. unfold urgency_step.
    destruct (label =? 1) eqn:E; [apply Z.eqb_eq in E; contradiction|].
    destruct (label' =? 1) eqn:E'; [apply Z.eqb_eq in E'; contradiction|].
    reflexivity.
  - destruct (thermal_step_appends air_temp process_temp []) as (a & -> & _).
    destruct (speed_step_appends rotational_speed (append [] a))
      as (b & -> & _).
    destruct (torque_step_appends torque (append (append [] a) b))
      as (c & -> & _).
    destruct (thermal_step_appends air_temp' process_temp' [])
      as (a' & -> & _).
    destruct (speed_step_appends rotational_speed' (append [] a'))
      as (b' & -> & _).
    destruct (torque_step_appends torque' (append (append [] a') b'))
      as (c' & -> & _).
    unfold urgency_step.
    destruct (label =? 1); destruct (label' =? 1);
      do 5 eexists; (split; [reflexivity|]); (split; [reflexivity|]);
      do 3 eexists; reflexivity.
Qed.

Lemma sub_nan_left (x : float) : Prim2SF (nan - x)%float = S754_nan.
Proof. rewrite sub_spec. reflexivity. Qed.

Lemma sub_nan_right (x : float) : Prim2SF (x - nan)%float = S754_nan.
Proof.
  rewrite sub_spec. change (Prim2SF nan) with S754_nan.
  destruct (Prim2SF x); reflexivity.
Qed.

Lemma ltb_nan_right (c x : float) :
  Prim2SF x = S754_nan -> (c <? x)%float = false.
Proof.
  intro H. rewrite ltb_spec, H. unfold SFltb.
  destruct (Prim2SF c); reflexivity.
Qed.

(** X3. A NaN reading (the text [nan] passes the route's [float]) fails
    every comparison, so it is reported as normal: a NaN speed gives the
    low-priority within-normal-range dict, a NaN torque the low-priority
    within-acceptable-range dict, a NaN process temperature the
    low-priority thermal-stability dict, and a NaN air temperature never
    gives the high-priority cooling alert. *)
Theorem nan_readings_are_reported_normal
  (air_temp process_temp rotational_speed torque : float)
  (prediction_result : Z) :
  (rotational_speed = nan ->
   exists a c u,
     get_default_recommendations fuel air_temp process_temp rotational_speed
       torque prediction_result
     = Ret [a; optimal_speed_range_monitoring rotational_speed; c; u])
  /\ (torque = nan ->
      exists a b u,
        get_default_recommendations fuel air_temp process_temp
          rotational_speed torque prediction_result
        = Ret [a; b; torque_load_optimization torque; u])
  /\ (process_temp = nan ->
      exists b c u,
        get_default_recommendations fuel air_temp process_temp
          rotational_speed torque prediction_result
        = Ret [thermal_stability_maintenance; b; c; u])
  /\ (air_temp = nan ->
      exists a b c u,
        get_default_recommendations fuel air_temp process_temp
          rotational_speed torque prediction_result
        = Ret [a; b; c; u]
        /\ title a <> "Cooling System Optimization"
        /\ priority a <> "high").
Proof.
  rewrite get_default_recommendations_cascade. unfold cascade.
  destruct (thermal_step_appends air_temp process_temp []) as (a & Ea & _).
  destruct (speed_step_appends rotational_speed (append [] a))
    as (b & Eb & _).
  destruct (torque_step_appends torque (append (append [] a) b))
    as (c & Ec & _).
  destruct (urgency_step_appends prediction_result
              (append (append (append [] a) b) c)) as (u & Eu & _).
  repeat split.
  - intros ->. rewrite Ea. unfold speed_step.
    change (2000 <? nan)%float with false.
    change (nan <? 1000)%float with false. cbv iota.
    destruct (torque_step_appends torque
                (append (append [] a)
                   (optimal_speed_range_monitoring nan))) as (c' & -> & _).
    destruct (urgency_step_appends prediction_result
                (append (append (append [] a)
                           (optimal_speed_range_monitoring nan)) c'))
      as (u' & -> & _).
    do 3 eexists. reflexivity.
  - intros ->. rewrite Ea, Eb. unfold torque_step.
    change (50 <? nan)%float with false.
    change (nan <? 20)%float with false. cbv iota.
    destruct (urgency_step_appends prediction_result
                (append (append (append [] a) b)
                   (torque_load_optimization nan))) as (u' & -> & _).
    do 3 eexists. reflexivity.
  - intros ->. unfold thermal_step, temp_diff.
    rewrite (ltb_nan_right 15 _ (sub_nan_left air_temp)).
    change (50 <? process_temp_c nan)%float with false. cbv iota.
    destruct (speed_step_appends rotational_speed
                (append [] thermal_stability_maintenance)) as (b' & -> & _).
    destruct (torque_step_appends torque
                (append (append [] thermal_stability_maintenance) b'))
      as (c' & -> & _).
    destruct (urgency_step_appends prediction_result
                (append (append (append [] thermal_stability_maintenance) b')
                   c')) as (u' & -> & _).
    do 3 eexists. reflexivity.
  - intros ->. unfold thermal_step, temp_diff.
    rewrite (ltb_nan_right 15 _ (sub_nan_right process_temp)).
    destruct (50 <? process_temp_c process_temp)%float;
      match goal with
      | |- context [append [] ?x] =>
          destruct (speed_step_appends rotational_speed (append [] x))
            as (b' & -> & _);
          destruct (torque_step_appends torque (append (append [] x) b'))
            as (c' & -> & _);
          destruct (urgency_step_appends prediction_result
                      (append (append (append [] x) b') c'))
            as (u' & -> & _)
      end;
      do 4 eexists; (split; [reflexivity|]); split; discriminate.
Qed.

(** *** The selection step on any candidate list *)

Local Open Scope list_scope.

Lemma len_list_take {A : Type} (k : Z) (l : list A) :
  0 <= k -> len (list_take k l) = Z.min k (len l).
Proof.
  intro Hk. unfold len, list_take, clamp_index.
  rewrite length_firstn.
  destruct (k <? 0) eqn:E; [apply Z.ltb_lt in E; lia|]. lia.
Qed.

Lemma In_list_take {A : Type} (k : Z) (l : list A) (x : A) :
  In x (list_take k l) -> In x l.
Proof.
  unfold list_take.
  generalize (Z.to_nat (clamp_index (Z.of_nat (List.length l)) k)).
  intro n. revert n. induction l as [|a l IH]; intros n H.
  - destruct n; simpl in H; contradiction.
  - destruct n; simpl in H; [contradiction|].
    destruct H as [-> | H]; [left; reflexivity|right; eapply IH, H].
Qed.

Lemma In_with_priority (p : string) (l : list recommendation)
  (r : recommendation) :
  In r (with_priority p l) -> In r l /\ priority r = p.
Proof.
  unfold with_priority. intro H. apply filter_In in H.
  destruct H as [H E]. apply String.eqb_eq in E. split; assumption.
Qed.

Lemma len_app (a b : list recommendation) : len (a ++ b) = len a + len b.
Proof. unfold len. rewrite length_app. lia. Qed.

Lemma len_priority_quota (recs : list recommendation) :
  len (priority_quota recs)
  = Z.min 4 (Z.min 2 (count_priority "high" recs)
             + count_priority "medium" recs + count_priority "low" recs).
Proof.
  pose proof (count_priority_le_len "high" recs) as Hh.
  pose proof (count_priority_le_len "medium" recs) as Hm.
  pose proof (count_priority_le_len "low" recs) as Hl.
  unfold priority_quota, extend, count_priority in *. cbv zeta.
  change ([] ++ list_take 2 (with_priority "high" recs))
    with (list_take 2 (with_priority "high" recs)).
  assert (A : len (list_take 2 (with_priority "high" recs))
              = Z.min 2 (len (with_priority "high" recs)))
    by (apply len_list_take; lia).
  set (h := list_take 2 (with_priority "high" recs)) in *.
  assert (B : len (list_take (4 - len h) (with_priority "medium" recs))
              = Z.min (4 - len h) (len (with_priority "medium" recs)))
    by (apply len_list_take; lia).
  set (m := list_take (4 - len h) (with_priority "medium" recs)) in *.
  destruct (0 <? 4 - len (h ++ m)) eqn:E.
  - apply Z.ltb_lt in E. rewrite !len_app in *.
    rewrite len_list_take by lia. lia.
  - apply Z.ltb_ge in E. rewrite !len_app in *. lia.
Qed.

Lemma In_priority_quota (recs : list recommendation) (r : recommendation) :
  In r (priority_quota recs) ->
  In r recs
  /\ (priority r = "high" \/ priority r = "medium" \/ priority r = "low").
Proof.
  unfold priority_quota, extend. cbv zeta.
  destruct (0 <? _); rewrite ?in_app_iff; simpl;
    intros H; repeat (destruct H as [H | H]);
    try contradiction;
    apply In_list_take, In_with_priority in H; destruct H as [H P];
    (split; [exact H|]); auto.
Qed.

(** X5. Whatever the pool and the candidates, the selection step never
    returns more than four dicts.  With the pool of the program four
    iterations of the backfill loop are enough for every candidate list:
    the step always returns, and it returns exactly four dicts when it is
    given at most four. *)
Theorem selection_returns_at_most_four :
  (forall n pool recs out,
      select_recommendations n pool recs = Ret out -> len out <= 4)
  /\ (forall power recs,
        exists out,
          select_recommendations 4 (additional_recommendations power) recs
          = Ret out
          /\ (len recs <= 4 -> len out = 4)).
Proof.
  split.
  - intros n pool recs out. unfold select_recommendations.
    destruct (backfill n pool recs) as [l|e|]; simpl; try discriminate.
    intro H. injection H as <-. apply len_list_take_le. lia.
  - intros power recs. unfold select_recommendations.
    destruct (backfill_with_the_pool power recs) as (l & -> & Lt & Ge).
    simpl. eexists. split; [reflexivity|]. intro H.
    assert (L : len l = 4).
    { destruct (Z.lt_ge_cases (len recs) 4) as [X | X]; [apply Lt, X|].
      rewrite (Ge X). lia. }
    rewrite L. change (4 <? 4) with false. cbv iota.
    rewrite <- L at 1. rewrite list_take_all. exact L.
Qed.

Lemma rec_eqb_refl (r : recommendation) : rec_eqb r r = true.
Proof. unfold rec_eqb. rewrite !String.eqb_refl. reflexivity. Qed.

Lemma rec_in_false (r : recommendation) (recs : list recommendation) :
  rec_in r recs = false -> ~ In r recs.
Proof.
  unfold rec_in. intros H Hin.
  assert (X : existsb (rec_eqb r) recs = true).
  { apply existsb_exists. exists r. split; [assumption|apply rec_eqb_refl]. }
  congruence.
Qed.

Lemma for_pool_spec (pool recs : list recommendation) :
  len recs < 4 ->
  (exists r, In r pool /\ rec_in r recs = false) ->
  exists r, for_pool pool recs = recs ++ [r]
            /\ In r pool /\ rec_in r recs = false.
Proof.
  intros L (r & Hr & N).
  induction pool as [|x pool IH]; simpl; [contradiction|].
  destruct (rec_in x recs) eqn:E; simpl.
  - destruct IH as (r' & E' & I' & N').
    + destruct Hr as [-> | Hr]; [congruence|assumption].
    + exists r'. repeat split; auto.
  - destruct (len recs <? 4) eqn:E4; [|apply Z.ltb_ge in E4; lia].
    exists x. repeat split; auto.
Qed.

Lemma backfill_spec (pool : list recommendation) :
  NoDup pool -> (4 <= List.length pool)%nat ->
  forall (n : nat) (recs : list recommendation),
    4 - len recs <= Z.of_nat n -> len recs < 4 ->
    exists added,
      backfill n pool recs = Ret (recs ++ added)
      /\ len (recs ++ added) = 4
      /\ (forall r, In r added -> In r pool /\ ~ In r recs)
      /\ NoDup added.
Proof.
  intros ND P n. induction n as [|n IH]; intros recs Hn L; [lia|].
  simpl. destruct (len recs <? 4) eqn:E; [|apply Z.ltb_ge in E; lia].
  destruct (for_pool_spec pool recs L) as (r & -> & Ir & Nr).
  { apply pool_has_fresh; [assumption|]. unfold len in L. lia. }
  assert (L1 : len (recs ++ [r]) = len recs + 1)
    by (rewrite len_app; reflexivity).
  destruct (Z.lt_ge_cases (len (recs ++ [r])) 4) as [X | X].
  - destruct (IH (recs ++ [r])) as (added & B & L4 & Fr & NDa); [lia|lia|].
    exists (r :: added). rewrite B, <- app_assoc in *. simpl in *.
    repeat split; auto.
    + destruct H as [<- | H]; [assumption|apply Fr, H].
    + destruct H as [<- | H]; [apply rec_in_false, Nr|].
      intro Hin. apply (proj2 (Fr _ H)). apply in_or_app. left. exact Hin.
    + constructor; [|assumption]. intro Hin.
      apply (proj2 (Fr _ Hin)). apply in_or_app. right. left. reflexivity.
  - exists [r]. rewrite backfill_skipped by lia.
    repeat split; try lia.
    + destruct H as [<- | []]. assumption.
    + destruct H as [<- | []]. apply rec_in_false, Nr.
    + repeat constructor. intros [].
Qed.

(** X6. Given fewer than four candidates, the backfill loop keeps them in
    place and appends dicts of the pool until there are four: each
    appended dict is in the pool and is not one of the candidates, and no
    dict is appended twice. *)
Theorem backfill_appends_fresh_pool_dicts (power : float)
  (recs : list recommendation) :
  len recs < 4 ->
  exists added,
    backfill 4 (additional_recommendations power) recs = Ret (recs ++ added)
    /\ len (recs ++ added) = 4
    /\ (forall r, In r added ->
                  In r (additional_recommendations power) /\ ~ In r recs)
    /\ NoDup added.
Proof.
  intro L. destruct (additional_recommendations_NoDup power) as [ND P].
  apply backfill_spec; try assumption.
  - rewrite P. lia.
  - unfold len. lia.
Qed.

(** X7. Given more than four candidates, the selection step returns
    [min 4 (min 2 h + m + l)] dicts, for [h], [m] and [l] the numbers of
    candidates of priority high, medium and low: fewer than four when
    the candidates beyond two high ones do not fill the slots.  Every
    returned dict is one of the candidates and has one of the three
    priorities; a candidate with another priority token is dropped. *)
Theorem quota_may_return_fewer_than_four (n : nat)
  (pool recs : list recommendation) :
  4 < len recs ->
  exists out,
    select_recommendations n pool recs = Ret out
    /\ len out
       = Z.min 4 (Z.min 2 (count_priority "high" recs)
                  + count_priority "medium" recs
                  + count_priority "low" recs)
    /\ (forall r, In r out ->
                  In r recs
                  /\ (priority r = "high" \/ priority r = "medium"
                      \/ priority r = "low")).
Proof.
  intro L. eexists. split; [apply select_recommendations_above_four, L|].
  pose proof (len_priority_quota recs) as Q.
  split.
  - rewrite len_list_take by lia. lia.
  - intros r H. apply In_list_take in H. apply In_priority_quota, H.
Qed.

End FallbackCoverage.

(** ** Further properties of the orchestrator *)

Lemma str_append_empty (s : string) : (s ++ EmptyString)%string = s.
Proof.
  induction s as [|a s IH]; simpl; [reflexivity|]. rewrite IH. reflexivity.
Qed.

(** The candidate by cases, with what the text looks like in each. *)
Lemma extract_json_shape (content : string) :
  (exists pre mid post,
      content = (pre ++ String "{" (mid ++ String "}" post))%string
      /\ extract_json content = String "{" (mid ++ String "}" EmptyString))
  \/ extract_json content = EmptyString
  \/ (extract_json content = String "}" EmptyString
      /\ exists a, content = (a ++ String "}" EmptyString)%string).
Proof.
  pose proof (str_len_nonneg content) as Hn.
  destruct (str_find_range "{" content) as [Hf | Hf].
  - right.
    destruct (occurs "}" content) eqn:O.
    + destruct (occurs_split_last _ _ O) as (a & b & -> & Hb).
      unfold extract_json. rewrite Hf, (str_rfind_last _ _ _ Hb).
      pose proof (str_len_nonneg a) as Ha.
      destruct b as [|x b].
      * right. split; [|exists a; reflexivity].
        rewrite <- (str_slice_middle a (String "}" EmptyString) EmptyString)
          at 2.
        unfold str_slice. cbv zeta.
        rewrite !str_len_app, !str_len_cons.
        change (str_len EmptyString) with 0.
        unfold clamp_index.
        change (-1 <? 0) with true. cbv iota.
        destruct (str_len a + 1 <? 0) eqn:E1; [apply Z.ltb_lt in E1; lia|].
        destruct (str_len a <? 0) eqn:E2; [apply Z.ltb_lt in E2; lia|].
        destruct (str_len a + (0 + 1) <? 0) eqn:E3;
          [apply Z.ltb_lt in E3; lia|].
        f_equal; lia.
      * left. apply str_slice_empty.
        rewrite str_len_app, !str_len_cons.
        pose proof (str_len_nonneg b). unfold clamp_index.
        change (-1 <? 0) with true. cbv iota.
        destruct (str_len a + 1 <? 0) eqn:E1; [apply Z.ltb_lt in E1; lia|].
        lia.
    + left. unfold extract_json.
      rewrite Hf, (str_rfind_absent _ _ O). apply str_slice_empty.
      unfold clamp_index. change (-1 + 1 <? 0) with false.
      change (-1 <? 0) with true. cbv iota. lia.
  - destruct (str_find_split "{" content) as (pre & rest & -> & Hpre);
      [lia|].
    destruct (occurs "}" rest) eqn:O.
    + left. destruct (occurs_split_last _ _ O) as (mid & post & -> & Hpost).
      exists pre, mid, post. split; [reflexivity|].
      apply extract_json_enclosed; assumption.
    + right. left. unfold extract_json.
      rewrite (str_find_first _ _ _ Hpre).
      rewrite str_rfind_app_absent by (simpl; rewrite O; reflexivity).
      apply str_slice_empty.
      rewrite str_len_app, str_len_cons.
      pose proof (str_len_nonneg pre). pose proof (str_len_nonneg rest).
      unfold clamp_index.
      destruct (str_len pre <? 0) eqn:E1; [apply Z.ltb_lt in E1; lia|].
      destruct (str_rfind_range "}" pre) as [R | R].
      * rewrite R. change (-1 + 1 <? 0) with false. cbv iota. lia.
      * destruct (str_rfind "}" pre + 1 <? 0) eqn:E2;
          [apply Z.ltb_lt in E2; lia|]. lia.
Qed.

(** X8. The JSON candidate is always a contiguous part of the content; it
    is empty, a lone closing brace, or a text that starts with an opening
    and ends with a closing brace; and extracting again from the
    candidate changes nothing. *)
Theorem extraction_is_a_part_and_idempotent (content : string) :
  (exists pre post,
      content = (pre ++ extract_json content ++ post)%string)
  /\ extract_json (extract_json content) = extract_json content
  /\ (extract_json content = EmptyString
      \/ extract_json content = String "}" EmptyString
      \/ exists mid,
           extract_json content
           = String "{" (mid ++ String "}" EmptyString)).
Proof.
  destruct (extract_json_shape content)
    as [(pre & mid & post & -> & E) | [E | (E & a & ->)]]; rewrite E.
  - split; [|split].
    + exists pre, post. simpl. rewrite str_append_assoc. reflexivity.
    + apply (extract_json_enclosed EmptyString mid EmptyString);
        reflexivity.
    + right. right. exists mid. reflexivity.
  - split; [|split].
    + exists content, EmptyString. simpl.
      rewrite str_append_empty. reflexivity.
    + reflexivity.
    + left. reflexivity.
  - split; [|split].
    + exists a, EmptyString. reflexivity.
    + reflexivity.
    + right. left. reflexivity.
Qed.

Lemma seq_index_head {A : Type} (x : A) (l : list A) :
  seq_index (x :: l) 0 = Ret x.
Proof.
  unfold seq_index. cbv zeta. change (0 <? 0) with false. cbv iota.
  destruct (Z.of_nat (List.length (x :: l)) <=? 0) eqn:E.
  - apply Z.leb_le in E. simpl List.length in E. lia.
  - reflexivity.
Qed.

(** [result['choices'][0]['message']['content']] when the first choice is
    a dict. *)
Lemma first_message (d m : list (string * pyval)) (rest : list pyval) :
  dict_get d "choices" = Some (PList (PDict m :: rest)) ->
  message_content (PDict d)
  = (message <- getitem_key (PDict m) "message" ;;
     getitem_key message "content").
Proof.
  intro C. unfold message_content. cbn [getitem_key]. rewrite C.
  cbn [bind getitem_int]. rewrite seq_index_head. reflexivity.
Qed.

Section OrchestratorCoverage.

Context {F : FloatFormat}.
Variable fuel : nat.
Variable GROQ_API_KEY : option string.
Variable requests_post : request -> reply response.
Variable json_loads : string -> reply pyval.
Variables air_temp process_temp rotational_speed torque : float.
Variable prediction_result : Z.

Let fb : outcome pyval :=
  fallback fuel air_temp process_temp rotational_speed torque
    prediction_result.

Let req : request :=
  build_request GROQ_API_KEY air_temp process_temp rotational_speed torque
    prediction_result.

Let ai : outcome pyval :=
  get_ai_recommendations fuel GROQ_API_KEY requests_post json_loads
    air_temp process_temp rotational_speed torque prediction_result.

(** X9. A reply with status 200 whose body is not the expected chat
    completion gives the fallback: a body that is not an object or has no
    [choices], an empty list of choices, a first choice without
    [message], a message without [content], and a content that is not a
    text (a [null] content among them). *)
Theorem malformed_completion_falls_back (response : response)
  (result : pyval) :
  requests_post req = Returns response ->
  status_code response = 200 ->
  json_body response = Returns result ->
  ((forall d, result <> PDict d) -> ai = fb)
  /\ (forall d, result = PDict d -> dict_get d "choices" = None -> ai = fb)
  /\ (forall d, result = PDict d ->
                dict_get d "choices" = Some (PList []) -> ai = fb)
  /\ (forall d m rest,
        result = PDict d ->
        dict_get d "choices" = Some (PList (PDict m :: rest)) ->
        dict_get m "message" = None -> ai = fb)
  /\ (forall d m g rest,
        result = PDict d ->
        dict_get d "choices" = Some (PList (PDict m :: rest)) ->
        dict_get m "message" = Some (PDict g) ->
        dict_get g "content" = None -> ai = fb)
  /\ (forall d m g rest content,
        result = PDict d ->
        dict_get d "choices" = Some (PList (PDict m :: rest)) ->
        dict_get m "message" = Some (PDict g) ->
        dict_get g "content" = Some content ->
        (forall s, content <> PStr s) -> ai = fb).
Proof.
  intros Hpost Hstatus Hbody.
  unfold ai. rewrite get_ai_recommendations_cases.
  fold req. fold fb. rewrite Hpost, Hstatus, Hbody.
  change (200 =? 200) with true. cbv iota.
  repeat split.
  - intro N. destruct result; try reflexivity. exfalso. eapply N. reflexivity.
  - intros d -> C. unfold message_content. cbn [getitem_key].
    rewrite C. reflexivity.
  - intros d -> C. unfold message_content. cbn [getitem_key].
    rewrite C. reflexivity.
  - intros d m rest -> C M. rewrite (first_message d m rest C).
    cbn [getitem_key]. rewrite M. reflexivity.
  - intros d m g rest -> C M G. rewrite (first_message d m rest C).
    cbn [getitem_key]. rewrite M. cbn [bind getitem_key]. rewrite G.
    reflexivity.
  - intros d m g rest content -> C M G N.
    rewrite (first_message d m rest C).
    cbn [getitem_key]. rewrite M. cbn [bind getitem_key]. rewrite G.
    destruct content; try reflexivity. exfalso. eapply N. reflexivity.
Qed.

(** X10. The function returns nothing of its own making: its value is
    either the value of the fallback, or the value found under
    [recommendations] in the object decoded from the content of a reply
    with status 200. *)
Theorem result_is_fallback_or_remote_payload :
  ai = fb
  \/ exists content d v,
       remote_replies GROQ_API_KEY requests_post air_temp process_temp
         rotational_speed torque prediction_result (PStr content)
       /\ json_loads (extract_json content) = Returns (PDict d)
       /\ dict_get d "recommendations" = Some v
       /\ ai = Ret v.
Proof.
  unfold ai. rewrite get_ai_recommendations_cases. fold req. fold fb.
  destruct (requests_post req) as [response|e] eqn:Hpost; [|left; reflexivity].
  destruct (status_code response =? 200) eqn:Hstatus; [|left; reflexivity].
  apply Z.eqb_eq in Hstatus.
  destruct (json_body response) as [result|e] eqn:Hbody; [|left; reflexivity].
  destruct (message_content result) as [content|e|] eqn:Hcontent;
    try (left; reflexivity).
  destruct content as [| | | |s| |]; try (left; reflexivity).
  unfold parse_content.
  destruct (json_loads (extract_json s)) as [data|e] eqn:Hloads;
    [|left; reflexivity].
  destruct data as [| | | | | |d]; try (left; reflexivity).
  simpl. destruct (dict_get d "recommendations") as [v|] eqn:Hget;
    [|left; reflexivity].
  right. exists s, d, v. repeat split; try assumption.
  exists response, result. repeat split; assumption.
Qed.

(** The function always returns a value. *)
Lemma get_ai_recommendations_returns : exists v, ai = Ret v.
Proof.
  destruct result_is_fallback_or_remote_payload as [E | (c & d & v & _ & _ & _ & E)].
  - rewrite E. unfold fb. rewrite fallback_value. eexists. reflexivity.
  - exists v. exact E.
Qed.

End OrchestratorCoverage.

(** ** Properties of the route [/predict] *)

Section RouteCoverage.

Context {F : FloatFormat}.
Variable fuel : nat.
Variable GROQ_API_KEY : option string.
Variable requests_post : request -> reply response.
Variable json_loads : string -> reply pyval.
Variable py_float : string -> reply float.
Variable py_round : float -> nat -> float.
Variable model_predict : float -> float -> float -> float -> reply Z.
Variable render_template : string -> template_args -> reply string.
Variable str_exn : exn -> string.
Variable py_print : string -> reply unit.

Let view (form : list (string * string)) : outcome string :=
  predict fuel GROQ_API_KEY requests_post json_loads py_float py_round
    model_predict render_template str_exn py_print form.

Let handler (e : exn) : outcome string := error_answer py_print str_exn e.

Lemma form_get_cases (form : list (string * string)) (key : string) :
  form_get form key = Raise KeyError \/ exists v, form_get form key = Ret v.
Proof.
  induction form as [|[k v] form IH]; simpl.
  - left. reflexivity.
  - destruct (String.eqb k key); [right; exists v; reflexivity|exact IH].
Qed.

(** The handler returns the text when the print returns, and lets the
    exception of the print through when it raises. *)
Lemma error_answer_cases (e : exn) :
  (handler e = Ret (str_exn e)
   /\ exists u, py_print ("Error in predict route: " ++ str_exn e)
                = Returns u)
  \/ exists e',
       py_print ("Error in predict route: " ++ str_exn e) = Raises e'
       /\ handler e = Raise e'.
Proof.
  unfold handler, error_answer.
  destruct (py_print _) as [u|e'].
  - left. split; [reflexivity|exists u; reflexivity].
  - right. exists e'. split; reflexivity.
Qed.

(** The view on a form whose four fields are numbers and for which the
    classifier answers. *)
Lemma predict_on_parsed_form (form : list (string * string))
  (t1 t2 t3 t4 : string) (f1 f2 f3 f4 : float) (label : Z) :
  form_get form "feature_1" = Ret t1 -> py_float t1 = Returns f1 ->
  form_get form "feature_2" = Ret t2 -> py_float t2 = Returns f2 ->
  form_get form "feature_3" = Ret t3 -> py_float t3 = Returns f3 ->
  form_get form "feature_4" = Ret t4 -> py_float t4 = Returns f4 ->
  model_predict f1 f2 f3 f4 = Returns label ->
  forall recs,
    get_ai_recommendations fuel GROQ_API_KEY requests_post json_loads
      f1 f2 f3 f4 label = Ret recs ->
    view form
    = page_or_error py_print str_exn
        (render_template "result.html"
           (page_args py_round f1 f2 f3 f4 label recs)).
Proof.
  intros H1 P1 H2 P2 H3 P3 H4 P4 M recs A.
  unfold view, predict.
  rewrite H1. cbn [bind]. rewrite P1. cbn [bind call].
  rewrite H2. cbn [bind]. rewrite P2. cbn [bind call].
  rewrite H3. cbn [bind]. rewrite P3. cbn [bind call].
  rewrite H4. cbn [bind]. rewrite P4. cbn [bind call].
  rewrite M. cbn [bind call]. rewrite A. cbn [bind].
  unfold page_args, air_temp_c, process_temp_c, temp_diff, power_estimate.
  destruct (render_template _ _); reflexivity.
Qed.

(** X11. What the remote service does never shows as an error of the
    view: when the four fields are numbers and the classifier answers,
    the view renders the result page (or answers as its handler does for
    the template's own exception), with the recommendations
    [get_ai_recommendations] returned, the banner of the label, and the
    rounded metrics the fallback engine computes; when the request raises,
    those recommendations are the four dicts of the cascade. *)
Theorem predict_renders_whatever_the_remote_does
  (form : list (string * string))
  (t1 t2 t3 t4 : string) (f1 f2 f3 f4 : float) (label : Z) :
  form_get form "feature_1" = Ret t1 -> py_float t1 = Returns f1 ->
  form_get form "feature_2" = Ret t2 -> py_float t2 = Returns f2 ->
  form_get form "feature_3" = Ret t3 -> py_float t3 = Returns f3 ->
  form_get form "feature_4" = Ret t4 -> py_float t4 = Returns f4 ->
  model_predict f1 f2 f3 f4 = Returns label ->
  exists recs,
    get_ai_recommendations fuel GROQ_API_KEY requests_post json_loads
      f1 f2 f3 f4 label = Ret recs
    /\ view form
       = page_or_error py_print str_exn
           (render_template "result.html"
              (page_args py_round f1 f2 f3 f4 label recs))
    /\ (forall e,
          requests_post (build_request GROQ_API_KEY f1 f2 f3 f4 label)
          = Raises e ->
          recs = recs_to_py (cascade f1 f2 f3 f4 label)).
Proof.
  intros H1 P1 H2 P2 H3 P3 H4 P4 M.
  destruct (get_ai_recommendations_returns fuel GROQ_API_KEY requests_post
              json_loads f1 f2 f3 f4 label) as (recs & A).
  exists recs. split; [exact A|]. split.
  - eapply predict_on_parsed_form; eassumption.
  - intros e R.
    rewrite get_ai_recommendations_cases, R, fallback_value in A.
    congruence.
Qed.

(** X12. The first thing that goes wrong is what the handler of lines
    326-329 gets, in the order of the code: a missing field or a field
    that is no number, from [feature_1] to [feature_4], then the
    classifier; later fields, the remote service and the template have no
    say.  The handler prints the text of that exception and answers with
    it; when the print itself raises (a text that quotes the form and
    that the output cannot encode), the exception of the print leaves
    the view. *)
Theorem predict_hands_the_first_failure_to_its_handler
  (form : list (string * string)) :
  (forall e, form_get form "feature_1" = Raise e -> view form = handler e)
  /\ (forall t1 e,
        form_get form "feature_1" = Ret t1 -> py_float t1 = Raises e ->
        view form = handler e)
  /\ (forall t1 f1,
        form_get form "feature_1" = Ret t1 -> py_float t1 = Returns f1 ->
        (forall e, form_get form "feature_2" = Raise e ->
                   view form = handler e)
        /\ (forall t2 e,
              form_get form "feature_2" = Ret t2 -> py_float t2 = Raises e ->
              view form = handler e)
        /\ (forall t2 f2,
              form_get form "feature_2" = Ret t2 ->
              py_float t2 = Returns f2 ->
              (forall e, form_get form "feature_3" = Raise e ->
                         view form = handler e)
              /\ (forall t3 e,
                    form_get form "feature_3" = Ret t3 ->
                    py_float t3 = Raises e ->
                    view form = handler e)
              /\ (forall t3 f3,
                    form_get form "feature_3" = Ret t3 ->
                    py_float t3 = Returns f3 ->
                    (forall e, form_get form "feature_4" = Raise e ->
                               view form = handler e)
                    /\ (forall t4 e,
                          form_get form "feature_4" = Ret t4 ->
                          py_float t4 = Raises e ->
                          view form = handler e)
                    /\ (forall t4 f4 e,
                          form_get form "feature_4" = Ret t4 ->
                          py_float t4 = Returns f4 ->
                          model_predict f1 f2 f3 f4 = Raises e ->
                          view form = handler e))))
  /\ (forall e u,
        py_print ("Error in predict route: " ++ str_exn e) = Returns u ->
        handler e = Ret (str_exn e))
  /\ (forall e e',
        py_print ("Error in predict route: " ++ str_exn e) = Raises e' ->
        handler e = Raise e').
Proof.
  unfold view, predict, handler.
  split; [intros e H; rewrite H; reflexivity|].
  split; [intros t1 e H P; rewrite H; cbn [bind]; rewrite P; reflexivity|].
  split.
  - intros t1 f1 H1 P1. rewrite H1. cbn [bind]. rewrite P1. cbn [bind call].
    split; [intros e H; rewrite H; reflexivity|].
    split; [intros t2 e H P; rewrite H; cbn [bind]; rewrite P; reflexivity|].
    intros t2 f2 H2 P2. rewrite H2. cbn [bind]. rewrite P2. cbn [bind call].
    split; [intros e H; rewrite H; reflexivity|].
    split; [intros t3 e H P; rewrite H; cbn [bind]; rewrite P; reflexivity|].
    intros t3 f3 H3 P3. rewrite H3. cbn [bind]. rewrite P3. cbn [bind call].
    split; [intros e H; rewrite H; reflexivity|].
    split; [intros t4 e H P; rewrite H; cbn [bind]; rewrite P; reflexivity|].
    intros t4 f4 e H4 P4 M. rewrite H4. cbn [bind]. rewrite P4.
    cbn [bind call]. rewrite M. reflexivity.
  - unfold error_answer. split.
    + intros e u P. rewrite P. reflexivity.
    + intros e e' P. rewrite P. reflexivity.
Qed.

(** Either the handler answers for something that went wrong before the
    classifier had answered, or the form is parsed and the classifier
    gives a label. *)
Lemma predict_cases (form : list (string * string)) :
  (exists e, view form = handler e)
  \/ exists t1 t2 t3 t4 f1 f2 f3 f4 label,
       form_get form "feature_1" = Ret t1 /\ py_float t1 = Returns f1
       /\ form_get form "feature_2" = Ret t2 /\ py_float t2 = Returns f2
       /\ form_get form "feature_3" = Ret t3 /\ py_float t3 = Returns f3
       /\ form_get form "feature_4" = Ret t4 /\ py_float t4 = Returns f4
       /\ model_predict f1 f2 f3 f4 = Returns label.
Proof.
  unfold view, predict, handler.
  destruct (form_get_cases form "feature_1") as [H1 | (t1 & H1)];
    [left; rewrite H1; eexists; reflexivity|].
  destruct (py_float t1) as [f1|e] eqn:P1;
    [|left; rewrite H1; cbn [bind]; rewrite P1; eexists; reflexivity].
  destruct (form_get_cases form "feature_2") as [H2 | (t2 & H2)];
    [left; rewrite H1; cbn [bind]; rewrite P1; cbn [bind call]; rewrite H2;
     eexists; reflexivity|].
  destruct (py_float t2) as [f2|e] eqn:P2;
    [|left; rewrite H1; cbn [bind]; rewrite P1; cbn [bind call]; rewrite H2;
      cbn [bind]; rewrite P2; eexists; reflexivity].
  destruct (form_get_cases form "feature_3") as [H3 | (t3 & H3)];
    [left; rewrite H1; cbn [bind]; rewrite P1; cbn [bind call]; rewrite H2;
     cbn [bind]; rewrite P2; cbn [bind call]; rewrite H3;
     eexists; reflexivity|].
  destruct (py_float t3) as [f3|e] eqn:P3;
    [|left; rewrite H1; cbn [bind]; rewrite P1; cbn [bind call]; rewrite H2;
      cbn [bind]; rewrite P2; cbn [bind call]; rewrite H3; cbn [bind];
      rewrite P3; eexists; reflexivity].
  destruct (form_get_cases form "feature_4") as [H4 | (t4 & H4)];
    [left; rewrite H1; cbn [bind]; rewrite P1; cbn [bind call]; rewrite H2;
     cbn [bind]; rewrite P2; cbn [bind call]; rewrite H3; cbn [bind];
     rewrite P3; cbn [bind call]; rewrite H4; eexists; reflexivity|].
  destruct (py_float t4) as [f4|e] eqn:P4;
    [|left; rewrite H1; cbn [bind]; rewrite P1; cbn [bind call]; rewrite H2;
      cbn [bind]; rewrite P2; cbn [bind call]; rewrite H3; cbn [bind];
      rewrite P3; cbn [bind call]; rewrite H4; cbn [bind]; rewrite P4;
      eexists; reflexivity].
  destruct (model_predict f1 f2 f3 f4) as [label|e] eqn:M;
    [|left; rewrite H1; cbn [bind]; rewrite P1; cbn [bind call]; rewrite H2;
      cbn [bind]; rewrite P2; cbn [bind call]; rewrite H3; cbn [bind];
      rewrite P3; cbn [bind call]; rewrite H4; cbn [bind]; rewrite P4;
      cbn [bind call]; rewrite M; eexists; reflexivity].
  right. exists t1, t2, t3, t4, f1, f2, f3, f4, label.
  repeat split; assumption.
Qed.

(** The view is the page or an answer of the handler. *)
Lemma predict_page_or_handler (form : list (string * string)) :
  (exists page, view form = Ret page) \/ (exists e, view form = handler e).
Proof.
  destruct (predict_cases form) as [E | E]; [right; exact E|].
  destruct E as (t1 & t2 & t3 & t4 & f1 & f2 & f3 & f4 & label
                 & H1 & P1 & H2 & P2 & H3 & P3 & H4 & P4 & M).
  destruct (get_ai_recommendations_returns fuel GROQ_API_KEY requests_post
              json_loads f1 f2 f3 f4 label) as (recs & A).
  rewrite (predict_on_parsed_form form t1 t2 t3 t4 f1 f2 f3 f4 label
             H1 P1 H2 P2 H3 P3 H4 P4 M recs A).
  destruct (render_template _ _) as [page|e]; simpl.
  - left. exists page. reflexivity.
  - right. exists e. reflexivity.
Qed.

(** X13. An exception can leave the view from one place only, the print
    of its own handler (line 328): whatever the form, the classifier, the
    remote service, the decoder and the template do, the view answers
    with a text, or it raises what that print raised on the text of the
    exception at hand; the fallback's loop never hangs.  With an output
    that takes every text the view always answers with a text. *)
Theorem only_the_handlers_print_can_leave_predict
  (form : list (string * string)) :
  ((exists body, view form = Ret body)
   \/ (exists e e',
         py_print ("Error in predict route: " ++ str_exn e) = Raises e'
         /\ view form = Raise e'))
  /\ ((forall text, exists u, py_print text = Returns u) ->
      exists body, view form = Ret body).
Proof.
  split.
  - destruct (predict_page_or_handler form) as [E | (e & E)]; [left; exact E|].
    rewrite E.
    destruct (error_answer_cases e) as [(R & _) | (e' & P & R)].
    + left. exists (str_exn e). exact R.
    + right. exists e, e'. split; assumption.
  - intro T.
    destruct (predict_page_or_handler form) as [E | (e & E)]; [exact E|].
    rewrite E.
    destruct (error_answer_cases e) as [(R & _) | (e' & P & R)].
    + exists (str_exn e). exact R.
    + destruct (T ("Error in predict route: " ++ str_exn e)) as (u & U).
      congruence.
Qed.

(** X14. On the fallback path the banner and the last recommendation
    agree: when the four fields are numbers, the classifier answers and
    [get_ai_recommendations] falls back, the page's banner reads
    "Maintenance Required" exactly when the fourth dict is the
    high-priority immediate-maintenance protocol (label 1), and "No
    Maintenance Required" exactly when it is the low-priority preventive
    schedule (any other label). *)
Theorem banner_agrees_with_urgency_on_fallback
  (form : list (string * string))
  (t1 t2 t3 t4 : string) (f1 f2 f3 f4 : float) (label : Z) :
  form_get form "feature_1" = Ret t1 -> py_float t1 = Returns f1 ->
  form_get form "feature_2" = Ret t2 -> py_float t2 = Returns f2 ->
  form_get form "feature_3" = Ret t3 -> py_float t3 = Returns f3 ->
  form_get form "feature_4" = Ret t4 -> py_float t4 = Returns f4 ->
  model_predict f1 f2 f3 f4 = Returns label ->
  get_ai_recommendations fuel GROQ_API_KEY requests_post json_loads
    f1 f2 f3 f4 label
  = fallback fuel f1 f2 f3 f4 label ->
  exists a b c u,
    view form
    = page_or_error py_print str_exn
        (render_template "result.html"
           (page_args py_round f1 f2 f3 f4 label (recs_to_py [a; b; c; u])))
    /\ (label = 1 ->
        prediction
          (page_args py_round f1 f2 f3 f4 label (recs_to_py [a; b; c; u]))
        = "Maintenance Required"
        /\ u = immediate_maintenance_protocol)
    /\ (label <> 1 ->
        prediction
          (page_args py_round f1 f2 f3 f4 label (recs_to_py [a; b; c; u]))
        = "No Maintenance Required"
        /\ u = preventive_maintenance_scheduling).
Proof.
  intros H1 P1 H2 P2 H3 P3 H4 P4 M A.
  rewrite fallback_value in A.
  pose proof (predict_on_parsed_form form t1 t2 t3 t4 f1 f2 f3 f4 label
                H1 P1 H2 P2 H3 P3 H4 P4 M _ A) as V.
  revert V. unfold cascade.
  destruct (thermal_step_appends f1 f2 []) as (a & -> & _).
  destruct (speed_step_appends f3 (append [] a)) as (b & -> & _).
  destruct (torque_step_appends f4 (append (append [] a) b)) as (c & -> & _).
  unfold urgency_step, page_args. cbn [prediction].
  destruct (label =? 1) eqn:E; intro V.
  - apply Z.eqb_eq in E.
    exists a, b, c, immediate_maintenance_protocol.
    split; [exact V|]. split; [intros _; split; reflexivity|].
    intro N. contradiction.
  - apply Z.eqb_neq in E.
    exists a, b, c, preventive_maintenance_scheduling.
    split; [exact V|]. split; [intro N; contradiction|].
    intros _. split; reflexivity.
Qed.

End RouteCoverage.

(** ** The further properties on concrete inputs *)

Lemma nan_readings_are_reported_normal_witness :
  exists a c u,
    get_default_recommendations (F := python_format) 0 300 320 nan 60 1
    = Ret [a; optimal_speed_range_monitoring nan; c; u]
    /\ priority (optimal_speed_range_monitoring (F := python_format) nan)
       = "low".
Proof.
  destruct (proj1 (nan_readings_are_reported_normal (F := python_format) 0
                     300 320 nan 60 1) eq_refl) as (a & c & u & E).
  exists a, c, u. split; [exact E|reflexivity].
Defined.

Lemma label_only_decides_the_last_dict_witness :
  get_default_recommendations (F := python_format) 0 300 320 2500 60 0
  = get_default_recommendations (F := python_format) 0 300 320 2500 60 2.
Proof.
  apply (proj1 (label_only_decides_the_last_dict (F := python_format) 0
                  300 320 2500 60 300 320 2500 60 0 2)); discriminate.
Defined.

Lemma backfill_appends_fresh_pool_dicts_witness :
  len (firstn 2 (scenario_a (F := python_format))) < 4
  /\ exists added,
       backfill 4
         (additional_recommendations (F := python_format)
            (power_estimate 60 2500))
         (firstn 2 scenario_a)
       = Ret (firstn 2 scenario_a ++ added)%list
       /\ len (firstn 2 scenario_a ++ added)%list = 4.
Proof.
  split; [reflexivity|].
  destruct (backfill_appends_fresh_pool_dicts (F := python_format)
              (power_estimate 60 2500) (firstn 2 scenario_a) eq_refl)
    as (added & B & L & _).
  exists added. split; assumption.
Defined.

(** Five high-priority candidates: the selection step returns two. *)
Lemma quota_may_return_fewer_than_four_witness :
  4 < len (scenario_a (F := python_format) ++ firstn 1 scenario_a)%list
  /\ exists out,
       select_recommendations 0 []
         (scenario_a (F := python_format) ++ firstn 1 scenario_a)%list
       = Ret out
       /\ len out = 2.
Proof.
  split; [reflexivity|].
  destruct (quota_may_return_fewer_than_four 0 []
              (scenario_a (F := python_format) ++ firstn 1 scenario_a)%list
              eq_refl) as (out & S & L & _).
  exists out. split; [exact S|exact L].
Defined.

Lemma malformed_completion_falls_back_witness :
  get_ai_recommendations (F := python_format) 0 (Some "gsk_key")
    empty_choices python_json_loads 300 320 2500 60 1
  = fallback (F := python_format) 0 300 320 2500 60 1.
Proof.
  apply (proj1 (proj2 (proj2
           (malformed_completion_falls_back (F := python_format) 0
              (Some "gsk_key") empty_choices python_json_loads
              300 320 2500 60 1
              (mkResponse 200 (Returns (PDict [("choices", PList [])])))
              (PDict [("choices", PList [])])
              eq_refl eq_refl eq_refl)))
           [("choices", PList [])]); reflexivity.
Defined.

Lemma predict_renders_whatever_the_remote_does_witness :
  predict (F := python_format) 0 None no_answer python_json_loads
    python_float python_round always_one banner_template exn_name
    utf8_stdout sample_form
  = Ret "result.html: Maintenance Required".
Proof.
  destruct (predict_renders_whatever_the_remote_does (F := python_format) 0
              None no_answer python_json_loads python_float python_round
              always_one banner_template exn_name utf8_stdout sample_form
              "300" "320" "2500" "60" 300 320 2500 60 1
              eq_refl eq_refl eq_refl eq_refl eq_refl eq_refl eq_refl
              eq_refl eq_refl) as (recs & _ & V & _).
  exact V.
Defined.

(** A missing field and a field that is no number are answered with the
    text of the exception; the text of a field in Han numerals is quoted
    in the message, and on an ASCII output the print of the handler
    raises and the exception leaves the view. *)
Lemma predict_hands_the_first_failure_to_its_handler_witness :
  predict (F := python_format) 0 None no_answer python_json_loads
    python_float python_round always_one banner_template exn_name
    utf8_stdout form_without_torque
  = Ret "KeyError"
  /\ predict (F := python_format) 0 None no_answer python_json_loads
       python_float python_round always_one banner_template exn_name
       utf8_stdout form_with_bad_speed
     = Ret "ValueError"
  /\ predict (F := python_format) 0 None no_answer python_json_loads
       python_float python_round always_one banner_template han_error_text
       ascii_stdout form_with_han_numerals
     = Raise ValueError.
Proof.
  pose proof (predict_hands_the_first_failure_to_its_handler
                (F := python_format) 0
                None no_answer python_json_loads python_float python_round
                always_one banner_template exn_name utf8_stdout
                form_without_torque)
    as (_ & _ & K & _).
  pose proof (predict_hands_the_first_failure_to_its_handler
                (F := python_format) 0
                None no_answer python_json_loads python_float python_round
                always_one banner_template exn_name utf8_stdout
                form_with_bad_speed)
    as (_ & _ & V & _).
  pose proof (predict_hands_the_first_failure_to_its_handler
                (F := python_format) 0
                None no_answer python_json_loads python_float python_round
                always_one banner_template han_error_text ascii_stdout
                form_with_han_numerals)
    as (_ & H & _).
  split; [|split].
  - destruct (K "300" 300%float eq_refl eq_refl) as (_ & _ & K2).
    destruct (K2 "320" 320%float eq_refl eq_refl) as (_ & _ & K3).
    destruct (K3 "2500" 2500%float eq_refl eq_refl) as (K4 & _).
    rewrite (K4 KeyError eq_refl). reflexivity.
  - destruct (V "300" 300%float eq_refl eq_refl) as (_ & _ & V2).
    destruct (V2 "320" 320%float eq_refl eq_refl) as (_ & V3 & _).
    rewrite (V3 "fast" ValueError eq_refl eq_refl). reflexivity.
  - rewrite (H "三百" ValueError eq_refl eq_refl). reflexivity.
Defined.

Lemma banner_agrees_with_urgency_on_fallback_witness :
  exists a b c,
    predict (F := python_format) 0 None no_answer python_json_loads
      python_float python_round always_one banner_template exn_name
      utf8_stdout sample_form
    = page_or_error utf8_stdout exn_name
        (banner_template "result.html"
           (page_args python_round 300 320 2500 60 1
              (recs_to_py [a; b; c; immediate_maintenance_protocol]))).
Proof.
  destruct (banner_agrees_with_urgency_on_fallback (F := python_format) 0
              None no_answer python_json_loads python_float python_round
              always_one banner_template exn_name utf8_stdout sample_form
              "300" "320" "2500" "60" 300 320 2500 60 1
              eq_refl eq_refl eq_refl eq_refl eq_refl eq_refl eq_refl
              eq_refl eq_refl eq_refl) as (a & b & c & u & V & Y & _).
  destruct (Y eq_refl) as (_ & ->).
  exists a, b, c. exact V.
Defined.
